(** * The MCP endpoint of the Milvus proxy: dispatcher, tool catalog and
      privilege filter

    A shallow embedding of package [mcp]
    (internal/distributed/proxy/httpserver/mcp: types.go, constants.go,
    descriptions.go, tools_catalog.go, server.go) and the properties of
    its request handlers.

    Conventions of the embedding.
    - A Go struct is a record [t] in a module named after the struct, so
      that [Tool.Name tool] reads as [tool.Name].
    - [interface{}] values decoded from JSON or built by the handlers are
      the dynamic values of [Value]; a [map[string]interface{}] is a
      [gmap string Value] (a nil map and an empty map read alike).
    - A pointer that may be nil is an [option].
    - Handlers run in the state monad [M] over [World]: the process-wide
      state of package proxy (authorization switch, role bindings,
      privilege cache), the proxy component behind the catalog with the
      log of calls made to it, the clock, and the response side of the
      [gin.Context] (body written by [c.JSON], header map written by
      [c.Header]).  The request side of the [gin.Context] is the
      read-only record [Context.t].
    - Logging (zap) never influences a handler and is left out, with
      [getRequestID], which only feeds log fields. *)

From Stdlib Require Import ZArith Floats DecimalString.
From stdpp Require Import gmap strings list fin_maps.

Set Warnings "-register-all".
Local Open Scope string_scope.
Local Open Scope list_scope.
Local Open Scope Z_scope.

(** ** Go values *)

(** The dynamic content of an [interface{}]: what encoding/json produces
    ([nil], [bool], [float64], [string], [[]interface{}],
    [map[string]interface{}]), the integer types [GetInt] also accepts,
    and the [map[string]string] the initialize handler attaches to its
    error. *)
Inductive Value : Type :=
| VNil
| VBool (b : bool)
| VFloat64 (f : float)
| VInt (n : Z)
| VInt64 (n : Z)
| VString (s : string)
| VArray (l : list Value)
| VObject (m : gmap string Value)
| VStringMap (m : gmap string string).

(** An [error] is known by its message, [err.Error()]. *)
Record error : Type := errors_New { Error : string }.

(** What a Go function returning a result pointer and an [error] hands
    back when it returns exactly one of the two. *)
Inductive Res (A : Type) : Type :=
| Ok (a : A)
| Err (e : error).
Arguments Ok {A} a.
Arguments Err {A} e.

(** The verb [%d] of package fmt on an [int]. *)
Definition itoa (n : Z) : string := NilZero.string_of_int (Z.to_int n).

Definition minInt64 : Z := - 2 ^ 63.
Definition maxInt64 : Z := 2 ^ 63 - 1.

(** The conversion [int(v)] of a [float64]: the fraction is discarded.
    For a value with no [int] (NaN, infinities, magnitude beyond 64 bits)
    Go leaves the result to the implementation; amd64 yields the
    smallest [int], which is what is written here. *)
Definition float64_to_int (v : float) : Z :=
  match Prim2SF v with
  | S754_zero _ => 0
  | S754_finite s m e =>
      let a := if 0 <=? e then Z.pos m * 2 ^ e else Z.pos m / 2 ^ (- e) in
      let t := if s then - a else a in
      if (minInt64 <=? t) && (t <=? maxInt64) then t else minInt64
  | _ => minInt64
  end.

(** [strings.Contains s sub] as a proposition. *)
Definition Contains (s sub : string) : Prop :=
  ∃ pre post : string, s = pre +:+ sub +:+ post.

(** ** constants.go *)

Definition MCPHeaderProtocolVersion : string := "MCP-Protocol-Version".
Definition ParamProtocolVersion : string := "protocolVersion".

Definition ParamDatabaseKey : string := "database".
Definition ParamCollectionNameKey : string := "collection_name".
Definition ParamDimensionKey : string := "dimension".
Definition ParamMetricTypeKey : string := "metric_type".

Definition FieldPrimaryIDName : string := "id".
Definition FieldVectorName : string := "vector".
Definition TypeParamDimKey : string := "dim".
Definition DefaultCollectionDescription : string := "Created by MCP".

Definition DefaultIndexName : string := "vector_index".
Definition DefaultIndexType : string := "IVF_FLAT".
Definition DefaultMetricType : string := "L2".
Definition IndexParamIndexTypeKey : string := "index_type".
Definition IndexParamMetricTypeKey : string := "metric_type".
Definition IndexParamParamsKey : string := "params".

Definition ObjectTypeDatabase : string := "Database".
Definition ObjectTypeCollection : string := "Collection".
Definition PrivShowCollections : string := "ShowCollections".
Definition PrivCreateCollection : string := "CreateCollection".
Definition PrivDescribeCollection : string := "DescribeCollection".
Definition PrivDropCollection : string := "DropCollection".
Definition PrivInsert : string := "Insert".
Definition PrivSearch : string := "Search".
Definition PrivQuery : string := "Query".
Definition PrivDelete : string := "Delete".
Definition PrivCreateIndex : string := "CreateIndex".
Definition PrivDescribeIndex : string := "DescribeIndex".

(** ** descriptions.go *)

Definition ToolCollectionListName : string := "collection.list".
Definition ToolCollectionListTitle : string := "List Collections".
Definition ToolCollectionListDescription : string :=
  "List all collections in a database".

Definition ToolCollectionCreateName : string := "collection.create".
Definition ToolCollectionCreateTitle : string := "Create Collection".
Definition ToolCollectionCreateDescription : string :=
  "Create a new vector collection with simplified parameters".

Definition ToolCollectionDescribeName : string := "collection.describe".
Definition ToolCollectionDescribeTitle : string := "Describe Collection".
Definition ToolCollectionDescribeDescription : string :=
  "Get detailed information about a collection".

Definition ToolCollectionDropName : string := "collection.drop".
Definition ToolCollectionDropTitle : string := "Drop Collection".
Definition ToolCollectionDropDescription : string :=
  "Delete a collection and all its data".

Definition ToolDataInsertName : string := "data.insert".
Definition ToolDataInsertTitle : string := "Insert Data".
Definition ToolDataInsertDescription : string :=
  "Insert vectors and associated data into a collection".

Definition ToolDataSearchName : string := "data.search".
Definition ToolDataSearchTitle : string := "Vector Search".
Definition ToolDataSearchDescription : string :=
  "Search for similar vectors in a collection".

Definition ToolDataQueryName : string := "data.query".
Definition ToolDataQueryTitle : string := "Query Data".
Definition ToolDataQueryDescription : string :=
  "Query data using scalar filters".

Definition ToolDataDeleteName : string := "data.delete".
Definition ToolDataDeleteTitle : string := "Delete Data".
Definition ToolDataDeleteDescription : string :=
  "Delete entities from a collection by primary key".

Definition ToolIndexCreateName : string := "index.create".
Definition ToolIndexCreateTitle : string := "Create Index".
Definition ToolIndexCreateDescription : string :=
  "Create an index on a vector field".

Definition ToolIndexDescribeName : string := "index.describe".
Definition ToolIndexDescribeTitle : string := "Describe Index".
Definition ToolIndexDescribeDescription : string :=
  "Get information about indexes on a collection".

Definition ParamDatabaseDescription : string := "Database name".
Definition ParamDatabaseDefaultDesc : string :=
  "Database name (default: 'default')".
Definition ParamCollectionNameDescription : string :=
  "Name of the collection".
Definition ParamCollectionNameCreateDescription : string :=
  "Name of the collection to create".
Definition ParamDimensionDescription : string := "Dimension of vectors".
Definition ParamMetricTypeDescription : string := "Distance metric type".

Definition OutputCollectionsDescription : string :=
  "List of collection names".
Definition OutputDatabaseDescription : string := "Database name".
Definition OutputCollectionNameDescription : string :=
  "Name of the created collection".
Definition OutputDimensionDescription : string := "Vector dimension".
Definition OutputMetricTypeDescription : string := "Distance metric type".
Definition OutputStatusDescription : string := "Operation status".

(** [fmt.Sprintf(MsgCollectionCreateSuccess, name, dimension)], with
    MsgCollectionCreateSuccess =
    "Collection '%s' created successfully with dimension %d". *)
Definition MsgCollectionCreateSuccess (name : string) (dimension : Z) : string :=
  "Collection '" +:+ name +:+ "' created successfully with dimension "
    +:+ itoa dimension.

Definition MsgInsertPlaceholder : string :=
  "Insert operation would be implemented here".
Definition MsgQueryPlaceholder : string :=
  "Query operation would be implemented here".
Definition MsgDeletePlaceholder : string :=
  "Delete operation would be implemented here".
Definition MsgCreateIndexPlaceholder : string :=
  "Create index operation would be implemented here".
Definition MsgDescribeIndexPlaceholder : string :=
  "Describe index operation would be implemented here".

(** [fmt.Sprintf(ErrDimensionPositive, dimension)], with
    ErrDimensionPositive = "dimension must be positive, got %d". *)
Definition ErrDimensionPositive (dimension : Z) : string :=
  "dimension must be positive, got " +:+ itoa dimension.

(** ** types.go: protocol envelopes and results *)

Definition McpProtocolVersion : string := "2025-06-18".
Definition DefaultSearchLimit : Z := 10.

Definition ErrorCodeParseError : Z := -32700.
Definition ErrorCodeMethodNotFound : Z := -32601.
Definition ErrorCodeInvalidParams : Z := -32602.

Module McpRequest.
Record t : Type := mk {
  Jsonrpc : string;
  ID : Value;
  Method : string;
  Params : gmap string Value
}.
End McpRequest.

Module McpError.
Record t : Type := mk {
  Code : Z;
  Message : string;
  Data : Value
}.
End McpError.

Module ToolsCapability.
Record t : Type := mk { ListChanged : bool }.
End ToolsCapability.

Module ResourcesCapability.
Record t : Type := mk { Subscribe : bool; ListChanged : bool }.
End ResourcesCapability.

Module PromptsCapability.
Record t : Type := mk { ListChanged : bool }.
End PromptsCapability.

Module LoggingCapability.
Record t : Type := mk { }.
End LoggingCapability.

Module ExperimentalCapability.
Record t : Type := mk { StructuredOutput : bool }.
End ExperimentalCapability.

Module McpCapabilities.
Record t : Type := mk {
  Tools : option ToolsCapability.t;
  Resources : option ResourcesCapability.t;
  Prompts : option PromptsCapability.t;
  Logging : option LoggingCapability.t;
  Experimental : option ExperimentalCapability.t
}.
End McpCapabilities.

Module McpServerInfo.
Record t : Type := mk { Name : string; Version : string; Title : string }.
End McpServerInfo.

Module McpInitializeResult.
Record t : Type := mk {
  ProtocolVersion : string;
  Capabilities : McpCapabilities.t;
  ServerInfo : McpServerInfo.t
}.
End McpInitializeResult.

(** A parameter of a tool schema.  [Minimum], [Maximum], [MinLength],
    [MaxLength] and [Items] are pointers in the source; [Default] is an
    [interface{}], [VNil] when not given. *)
Inductive SchemaParam : Type := mkSchemaParam {
  Param_Type : string;
  Param_Description : string;
  Param_Default : Value;
  Param_Enum : list Value;
  Param_Minimum : option float;
  Param_Maximum : option float;
  Param_MinLength : option Z;
  Param_MaxLength : option Z;
  Param_Pattern : string;
  Param_Format : string;
  Param_Items : option SchemaParam
}.

Module ToolSchema.
Record t : Type := mk {
  Type_ : string;
  Properties : gmap string SchemaParam;
  Required : list string
}.
End ToolSchema.

Module McpToolDescription.
Record t : Type := mk {
  Name : string;
  Title : string;
  Description : string;
  InputSchema : option ToolSchema.t;
  OutputSchema : option ToolSchema.t
}.
End McpToolDescription.

Module McpToolsListResult.
Record t : Type := mk {
  Tools : list McpToolDescription.t;
  NextCursor : string
}.
End McpToolsListResult.

Module McpContent.
Record t : Type := mk { Type_ : string; Text : string }.
End McpContent.

Module McpToolResult.
Record t : Type := mk {
  Content : list McpContent.t;
  IsError : bool;
  StructuredContent : Value
}.
End McpToolResult.

(** What the handlers store in the [Result interface{}] of a response:
    one of the three result structs, or a [map[string]interface{}]. *)
Inductive ResultValue : Type :=
| RInitialize (r : McpInitializeResult.t)
| RToolsList (r : McpToolsListResult.t)
| RToolResult (r : McpToolResult.t)
| RMap (m : gmap string Value).

Module McpResponse.
Record t : Type := mk {
  Jsonrpc : string;
  ID : Value;
  Result : option ResultValue;
  Error : option McpError.t
}.
End McpResponse.

Module PrivilegeRequirement.
Record t : Type := mk {
  ObjectType : string;
  ObjectPrivilege : string;
  ObjectNameField : string
}.
End PrivilegeRequirement.

(** ** types.go: tool arguments *)

Abbreviation ToolArgs := (gmap string Value).

(** func (args ToolArgs) GetString(key, defaultValue string) string *)
Definition GetString (args : ToolArgs) (key defaultValue : string) : string :=
  match args !! key with
  | Some (VString v) => if decide (v = "") then defaultValue else v
  | _ => defaultValue
  end.

(** func (args ToolArgs) GetInt(key string, defaultValue int) int *)
Definition GetInt (args : ToolArgs) (key : string) (defaultValue : Z) : Z :=
  match args !! key with
  | Some (VFloat64 v) => float64_to_int v
  | Some (VInt v) => v
  | Some (VInt64 v) => v
  | _ => defaultValue
  end.

(** func (args ToolArgs) GetBool(key string, defaultValue bool) bool *)
Definition GetBool (args : ToolArgs) (key : string) (defaultValue : bool) : bool :=
  match args !! key with
  | Some (VBool v) => v
  | _ => defaultValue
  end.

(** func (args ToolArgs) Require(keys ...string) error *)
Fixpoint Require_ (args : ToolArgs) (keys : list string) : option error :=
  match keys with
  | [] => None
  | key :: keys' =>
      match args !! key with
      | None =>
          Some (errors_New ("required parameter '" +:+ key +:+ "' is missing"))
      | Some _ => Require_ args keys'
      end
  end.

(** ** types.go: tool results and schemas *)

Module ToolResult.
Record t : Type := mk {
  Content : list McpContent.t;
  IsError : bool;
  StructuredContent : Value
}.
End ToolResult.

Definition NewToolResult (text : string) : ToolResult.t :=
  {| ToolResult.Content := [ {| McpContent.Type_ := "text"; McpContent.Text := text |} ];
     ToolResult.IsError := false;
     ToolResult.StructuredContent := VNil |}.

Definition NewToolResultWithData (text : string) (data : Value) : ToolResult.t :=
  {| ToolResult.Content := [ {| McpContent.Type_ := "text"; McpContent.Text := text |} ];
     ToolResult.StructuredContent := data;
     ToolResult.IsError := false |}.

Definition AsError (r : ToolResult.t) : ToolResult.t :=
  {| ToolResult.Content := ToolResult.Content r;
     ToolResult.IsError := true;
     ToolResult.StructuredContent := ToolResult.StructuredContent r |}.

Definition WithStructuredContent (r : ToolResult.t) (data : Value) : ToolResult.t :=
  {| ToolResult.Content := ToolResult.Content r;
     ToolResult.IsError := ToolResult.IsError r;
     ToolResult.StructuredContent := data |}.

Definition NewToolSchema : ToolSchema.t :=
  {| ToolSchema.Type_ := "object";
     ToolSchema.Properties := ∅;
     ToolSchema.Required := [] |}.

Definition AddParameter (s : ToolSchema.t) (name : string) (param : SchemaParam)
  : ToolSchema.t :=
  {| ToolSchema.Type_ := ToolSchema.Type_ s;
     ToolSchema.Properties := <[name := param]> (ToolSchema.Properties s);
     ToolSchema.Required := ToolSchema.Required s |}.

Definition AddRequired (s : ToolSchema.t) (params : list string) : ToolSchema.t :=
  {| ToolSchema.Type_ := ToolSchema.Type_ s;
     ToolSchema.Properties := ToolSchema.Properties s;
     ToolSchema.Required := ToolSchema.Required s ++ params |}.

(** The composite literal of a string parameter: type, description and
    default set, every other field at its zero value. *)
Definition stringParam (description : string) (default : Value) : SchemaParam :=
  {| Param_Type := "string"; Param_Description := description;
     Param_Default := default;
     Param_Enum := []; Param_Minimum := None; Param_Maximum := None;
     Param_MinLength := None; Param_MaxLength := None;
     Param_Pattern := ""; Param_Format := ""; Param_Items := None |}.

(** ** Imported declarations

    The message types of milvus-proto that [createCollection] builds and
    reads, with the fields it touches. *)

Module KeyValuePair.
Record t : Type := mk { Key : string; Value_ : string }.
End KeyValuePair.

Inductive DataType : Type :=
| DataType_Int64
| DataType_FloatVector.

Module FieldSchema.
Record t : Type := mk {
  FieldID : Z;
  Name : string;
  IsPrimaryKey : bool;
  DataType_ : DataType;
  AutoID : bool;
  TypeParams : list KeyValuePair.t
}.
End FieldSchema.

Module CollectionSchema.
Record t : Type := mk {
  Name : string;
  Description : string;
  Fields : list FieldSchema.t
}.
End CollectionSchema.

Module CreateCollectionRequest.
Record t : Type := mk {
  DbName : string;
  CollectionName : string;
  Schema : list Byte.byte
}.
End CreateCollectionRequest.

Module CreateIndexRequest.
Record t : Type := mk {
  DbName : string;
  CollectionName : string;
  FieldName : string;
  IndexName : string;
  ExtraParams : list KeyValuePair.t
}.
End CreateIndexRequest.

Module Status.
Record t : Type := mk { Code : Z; Reason : string }.
End Status.

(** The generated getters are nil-safe: on a nil [*commonpb.Status] they
    return the zero value. *)
Definition GetCode (resp : option Status.t) : Z :=
  match resp with Some st => Status.Code st | None => 0 end.

Definition GetReason (resp : option Status.t) : string :=
  match resp with Some st => Status.Reason st | None => "" end.

(** [types.ProxyComponent], for the two methods [createCollection] calls.
    A call takes the component's state and returns the response, the
    error and the next state. *)
Class ProxyComponent (P : Type) : Type := {
  CreateCollection :
    P → CreateCollectionRequest.t → (option Status.t * option error) * P;
  CreateIndex :
    P → CreateIndexRequest.t → (option Status.t * option error) * P
}.

(** The calls that reached the proxy component, oldest first. *)
Inductive ProxyCall : Type :=
| CallCreateCollection (req : CreateCollectionRequest.t)
| CallCreateIndex (req : CreateIndexRequest.t).

(** Constants and pure functions of packages outside [mcp], taken as
    they are: [util.DefaultDBName], [util.RolePublic],
    [funcutil.PolicyForResource], [proto.Marshal] on a collection schema,
    [fmt.Errorf] applied to a reason string alone (the reason is then the
    format, with no operand), [Time.Format(time.RFC3339)], and gin's
    [ShouldBindJSON] from the request body to an [McpRequest]. *)
Class Imports : Type := {
  util_DefaultDBName : string;
  util_RolePublic : string;
  funcutil_PolicyForResource : string → string → string → string;
  proto_Marshal : CollectionSchema.t → list Byte.byte * option error;
  fmt_Errorf : string → error;
  time_Format_RFC3339 : Z → string;
  ShouldBindJSON : string → McpRequest.t * option error
}.

(** Go leaves the order in which [range] visits a map unspecified, and
    the order may differ from one [range] statement to the next over the
    same map.  An instance stands for the order of one such statement:
    any enumeration of the entries may come out.  A property of a single
    range holds for every instance; a property that spans two ranges is
    stated over two instances. *)
Class MapRange : Type := {
  rangeOver : ∀ {V : Type}, gmap string V → list (string * V);
  rangeOver_perm : ∀ (V : Type) (m : gmap string V), rangeOver m ≡ₚ map_to_list m
}.

(** ** The world the handlers run in *)

Record World (P : Type) : Type := mkWorld {
  AuthorizationEnabled : bool;
  userRoles : string → list string * option error;
  priCache : gmap (string * string * string) bool;
  priCacheVersion : Z;
  proxy : P;
  proxyCalls : list ProxyCall;
  clock : Z;
  written : list (Z * McpResponse.t);
  respHeader : gmap string string
}.
Arguments mkWorld {P}.
Arguments AuthorizationEnabled {P} _.
Arguments userRoles {P} _.
Arguments priCache {P} _.
Arguments priCacheVersion {P} _.
Arguments proxy {P} _.
Arguments proxyCalls {P} _.
Arguments clock {P} _.
Arguments written {P} _.
Arguments respHeader {P} _.

Definition set_priCache {P} (w : World P) (c : gmap (string * string * string) bool)
  : World P :=
  mkWorld (AuthorizationEnabled w) (userRoles w) c (priCacheVersion w)
          (proxy w) (proxyCalls w) (clock w) (written w) (respHeader w).

Definition set_proxy {P} (w : World P) (p : P) (calls : list ProxyCall) : World P :=
  mkWorld (AuthorizationEnabled w) (userRoles w) (priCache w) (priCacheVersion w)
          p calls (clock w) (written w) (respHeader w).

Definition set_written {P} (w : World P) (l : list (Z * McpResponse.t)) : World P :=
  mkWorld (AuthorizationEnabled w) (userRoles w) (priCache w) (priCacheVersion w)
          (proxy w) (proxyCalls w) (clock w) l (respHeader w).

Definition set_respHeader {P} (w : World P) (h : gmap string string) : World P :=
  mkWorld (AuthorizationEnabled w) (userRoles w) (priCache w) (priCacheVersion w)
          (proxy w) (proxyCalls w) (clock w) (written w) h.

(** The state monad of the handlers, with stdpp's [mret]/[≫=] notation. *)
Definition M (P A : Type) : Type := World P → A * World P.

#[global] Instance M_ret {P} : MRet (M P) := λ A a w, (a, w).
#[global] Instance M_bind {P} : MBind (M P) :=
  λ A B f m w, let '(a, w') := m w in f a w'.

(** *** Package proxy

    The process-wide authorization state of package proxy is not among
    the sources; its four entry points follow the contract the spec
    gives for the privilege authority (section 6). *)

(** Modelled from the spec: [proxy.Params.CommonCfg.AuthorizationEnabled.GetAsBool()],
    the global authorization switch of step 1 of the privilege filter. *)
Definition AuthorizationEnabled_GetAsBool {P} : M P bool :=
  λ w, (AuthorizationEnabled w, w).

(** Modelled from the spec: [proxy.GetRole]; given a principal name,
    returns the set of role names bound to that principal, or an error. *)
Definition GetRole {P} (username : string) : M P (list string * option error) :=
  λ w, (userRoles w username, w).

(** Modelled from the spec: [proxy.GetPrivilegeCache]; given a role
    name, resource identifier and privilege name, returns (isGranted,
    isCached, cacheVersion). *)
Definition GetPrivilegeCache {P} (roleName object objectPrivilege : string)
  : M P (bool * bool * Z) :=
  λ w, match priCache w !! (roleName, object, objectPrivilege) with
       | Some isPermit => ((isPermit, true, priCacheVersion w), w)
       | None => ((false, false, priCacheVersion w), w)
       end.

(** Modelled from the spec: [proxy.SetPrivilegeCache]; given the same
    triple plus a version, writes a cache entry. *)
Definition SetPrivilegeCache {P} (roleName object objectPrivilege : string)
    (isPermit : bool) (version : Z) : M P unit :=
  λ w, (tt, set_priCache w (<[(roleName, object, objectPrivilege) := isPermit]> (priCache w))).

(** *** The proxy component, the clock and gin *)

Definition proxy_CreateCollection {P} `{!ProxyComponent P}
    (req : CreateCollectionRequest.t) : M P (option Status.t * option error) :=
  λ w, let '(r, p') := CreateCollection (proxy w) req in
       (r, set_proxy w p' (proxyCalls w ++ [CallCreateCollection req])).

Definition proxy_CreateIndex {P} `{!ProxyComponent P}
    (req : CreateIndexRequest.t) : M P (option Status.t * option error) :=
  λ w, let '(r, p') := CreateIndex (proxy w) req in
       (r, set_proxy w p' (proxyCalls w ++ [CallCreateIndex req])).

Definition time_Now {P} : M P Z := λ w, (clock w, w).

(** The request side of a [gin.Context]: request headers, the keys set
    by earlier middleware, and the raw body. *)
Module Context.
Record t : Type := mk {
  Header : gmap string string;
  Keys : gmap string Value;
  Body : string
}.
End Context.

(** c.GetHeader(key): the header's value, or the empty string. *)
Definition c_GetHeader (c : Context.t) (key : string) : string :=
  default "" (Context.Header c !! key).

(** c.GetString(key): the key's value when it is a string, else empty. *)
Definition c_GetString (c : Context.t) (key : string) : string :=
  match Context.Keys c !! key with
  | Some (VString s) => s
  | _ => ""
  end.

Definition StatusOK : Z := 200.

(** c.JSON(code, obj): the response body is written. *)
Definition c_JSON {P} (code : Z) (obj : McpResponse.t) : M P unit :=
  λ w, (tt, set_written w (written w ++ [(code, obj)])).

(** c.Header(key, value): the entry is set in the header map of the
    response writer.  The map does not record whether the status line
    and the body have already gone out: an entry set after [c_JSON] is
    in the map but is no longer sent to the client, so [respHeader] says
    what the handler set, not what the client received. *)
Definition c_Header {P} (key value : string) : M P unit :=
  λ w, (tt, set_respHeader w (<[key := value]> (respHeader w))).

(** ** types.go: tools *)

(** type ExecuteFunc: from a context and the arguments to a
    [ToolResult] pointer and an [error].  The callbacks of this package
    return a result or an error, never both and never neither. *)
Definition ExecuteFunc (P : Type) : Type := ToolArgs → M P (Res ToolResult.t).

Module Tool.
Record t (P : Type) : Type := mk {
  Name : string;
  Title : string;
  Description : string;
  Execute : ExecuteFunc P;
  InputSchema : option ToolSchema.t;
  OutputSchema : option ToolSchema.t;
  RequiredPrivileges : list PrivilegeRequirement.t
}.
Arguments mk {P}.
Arguments Name {P} _.
Arguments Title {P} _.
Arguments Description {P} _.
Arguments Execute {P} _.
Arguments InputSchema {P} _.
Arguments OutputSchema {P} _.
Arguments RequiredPrivileges {P} _.
End Tool.

(** ** tools_catalog.go *)

(** The catalog; its [proxy] field is the component held in the world,
    and the mutex guards nothing a single handler can observe. *)
Module ToolsCatalog.
Record t (P : Type) : Type := mk { tools : gmap string (Tool.t P) }.
Arguments mk {P}.
Arguments tools {P} _.
End ToolsCatalog.

(** func (tc *ToolsCatalog) Get(name string): the tool and whether it exists *)
Definition Get {P} (tc : ToolsCatalog.t P) (name : string) : option (Tool.t P) :=
  ToolsCatalog.tools tc !! name.

Definition describe {P} (tool : Tool.t P) : McpToolDescription.t :=
  {| McpToolDescription.Name := Tool.Name tool;
     McpToolDescription.Title := Tool.Title tool;
     McpToolDescription.Description := Tool.Description tool;
     McpToolDescription.InputSchema := Tool.InputSchema tool;
     McpToolDescription.OutputSchema := Tool.OutputSchema tool |}.

(** func (tc *ToolsCatalog) List() []McpToolDescription *)
Definition List {P} `{!MapRange} (tc : ToolsCatalog.t P) : list McpToolDescription.t :=
  (λ kv, describe kv.2) <$> rangeOver (ToolsCatalog.tools tc).

(** func (tc *ToolsCatalog) register(tool *Tool) *)
Definition register {P} (tc : ToolsCatalog.t P) (tool : Tool.t P) : ToolsCatalog.t P :=
  ToolsCatalog.mk (<[Tool.Name tool := tool]> (ToolsCatalog.tools tc)).

(** *** Schema definitions *)

Definition simpleCollectionSchema : ToolSchema.t :=
  {| ToolSchema.Type_ := "object";
     ToolSchema.Properties :=
       <["database" := stringParam ParamDatabaseDescription (VString "default")]>
       (<["collection_name" := stringParam ParamCollectionNameDescription VNil]> ∅);
     ToolSchema.Required := ["collection_name"] |}.

Definition schemaForListCollections : ToolSchema.t :=
  {| ToolSchema.Type_ := "object";
     ToolSchema.Properties :=
       <["database" := stringParam ParamDatabaseDefaultDesc (VString "default")]> ∅;
     ToolSchema.Required := [] |}.

Definition schemaForCreateCollection : ToolSchema.t :=
  let min1 := 1 in
  let max255 := 255 in
  let minDim := 1%float in
  let maxDim := 32768%float in
  AddRequired
    (AddParameter
      (AddParameter
        (AddParameter
          (AddParameter NewToolSchema
             "database" (stringParam ParamDatabaseDescription (VString "default")))
           "collection_name"
           {| Param_Type := "string";
              Param_Description := ParamCollectionNameCreateDescription;
              Param_Default := VNil; Param_Enum := [];
              Param_Minimum := None; Param_Maximum := None;
              Param_MinLength := Some min1; Param_MaxLength := Some max255;
              Param_Pattern := ""; Param_Format := ""; Param_Items := None |})
         "dimension"
         {| Param_Type := "integer";
            Param_Description := ParamDimensionDescription;
            Param_Default := VNil; Param_Enum := [];
            Param_Minimum := Some minDim; Param_Maximum := Some maxDim;
            Param_MinLength := None; Param_MaxLength := None;
            Param_Pattern := ""; Param_Format := ""; Param_Items := None |})
       "metric_type"
       {| Param_Type := "string";
          Param_Description := ParamMetricTypeDescription;
          Param_Default := VString "L2";
          Param_Enum := [VString "L2"; VString "IP"; VString "COSINE"];
          Param_Minimum := None; Param_Maximum := None;
          Param_MinLength := None; Param_MaxLength := None;
          Param_Pattern := ""; Param_Format := ""; Param_Items := None |})
    ["collection_name"; "dimension"].

Definition schemaForDescribeCollection : ToolSchema.t :=
  {| ToolSchema.Type_ := "object";
     ToolSchema.Properties :=
       <["database" := stringParam "Database name" (VString "default")]>
       (<["collection_name" := stringParam "Name of the collection" VNil]> ∅);
     ToolSchema.Required := ["collection_name"] |}.

Definition outputSchemaForListCollections : ToolSchema.t :=
  AddRequired
    (AddParameter
      (AddParameter NewToolSchema
         "collections"
         {| Param_Type := "array";
            Param_Description := OutputCollectionsDescription;
            Param_Default := VNil; Param_Enum := [];
            Param_Minimum := None; Param_Maximum := None;
            Param_MinLength := None; Param_MaxLength := None;
            Param_Pattern := ""; Param_Format := "";
            Param_Items := Some (stringParam "" VNil) |})
       "database" (stringParam OutputDatabaseDescription VNil))
    ["collections"; "database"].

Definition outputSchemaForCreateCollection : ToolSchema.t :=
  AddRequired
    (AddParameter
      (AddParameter
        (AddParameter
          (AddParameter
            (AddParameter NewToolSchema
               "collection_name" (stringParam OutputCollectionNameDescription VNil))
             "database" (stringParam "Database name" VNil))
           "dimension"
           {| Param_Type := "integer";
              Param_Description := OutputDimensionDescription;
              Param_Default := VNil; Param_Enum := [];
              Param_Minimum := None; Param_Maximum := None;
              Param_MinLength := None; Param_MaxLength := None;
              Param_Pattern := ""; Param_Format := ""; Param_Items := None |})
         "metric_type" (stringParam OutputMetricTypeDescription VNil))
       "status" (stringParam OutputStatusDescription VNil))
    ["collection_name"; "database"; "dimension"; "metric_type"; "status"].

(** *** Tool implementations *)

(** The raw string literal of the index parameters, an object with the
    one member nlist = 128; the double quote is character 34. *)
Definition nlistParams : string :=
  let quote := String (Ascii.ascii_of_nat 34) EmptyString in
  "{" +:+ quote +:+ "nlist" +:+ quote +:+ ": 128}".

(** The schema [createCollection] builds: simple schema with auto ID. *)
Definition collectionSchemaFor (collectionName : string) (dimension : Z)
  : CollectionSchema.t :=
  {| CollectionSchema.Name := collectionName;
     CollectionSchema.Description := DefaultCollectionDescription;
     CollectionSchema.Fields := [
       {| FieldSchema.FieldID := 100;
          FieldSchema.Name := FieldPrimaryIDName;
          FieldSchema.IsPrimaryKey := true;
          FieldSchema.DataType_ := DataType_Int64;
          FieldSchema.AutoID := true;
          FieldSchema.TypeParams := [] |};
       {| FieldSchema.FieldID := 101;
          FieldSchema.Name := FieldVectorName;
          FieldSchema.IsPrimaryKey := false;
          FieldSchema.DataType_ := DataType_FloatVector;
          FieldSchema.AutoID := false;
          FieldSchema.TypeParams := [
            {| KeyValuePair.Key := TypeParamDimKey;
               KeyValuePair.Value_ := itoa dimension |} ] |} ] |}.

(** The index request [createCollection] issues after the collection is
    created: auto-create index for better performance. *)
Definition indexRequestFor (dbName collectionName metricType : string)
  : CreateIndexRequest.t :=
  {| CreateIndexRequest.DbName := dbName;
     CreateIndexRequest.CollectionName := collectionName;
     CreateIndexRequest.FieldName := FieldVectorName;
     CreateIndexRequest.IndexName := DefaultIndexName;
     CreateIndexRequest.ExtraParams := [
       {| KeyValuePair.Key := IndexParamIndexTypeKey;
          KeyValuePair.Value_ := DefaultIndexType |};
       {| KeyValuePair.Key := IndexParamMetricTypeKey;
          KeyValuePair.Value_ := metricType |};
       {| KeyValuePair.Key := IndexParamParamsKey;
          KeyValuePair.Value_ := nlistParams |} ] |}.

(** The structured payload of a successful [createCollection]. *)
Definition createdData (collectionName dbName : string) (dimension : Z)
    (metricType : string) : gmap string Value :=
  <["collection_name" := VString collectionName]>
  (<["database" := VString dbName]>
  (<["dimension" := VInt dimension]>
  (<["metric_type" := VString metricType]>
  (<["status" := VString "created"]> ∅)))).

(** func (tc *ToolsCatalog) createCollection(ctx, args) *)
Definition createCollection {P} `{!ProxyComponent P} `{!Imports} (args : ToolArgs)
  : M P (Res ToolResult.t) :=
  (* Validate required parameters *)
  match Require_ args [ParamCollectionNameKey; ParamDimensionKey] with
  | Some err => mret (Err err)
  | None =>
    let dbName := GetString args ParamDatabaseKey util_DefaultDBName in
    let collectionName := GetString args ParamCollectionNameKey "" in
    let dimension := GetInt args ParamDimensionKey 0 in
    let metricType := GetString args ParamMetricTypeKey DefaultMetricType in
    if dimension <=? 0 then
      mret (Err (errors_New (ErrDimensionPositive dimension)))
    else
      let schema := collectionSchemaFor collectionName dimension in
      (* Use protobuf wire format as required by Milvus *)
      let '(schemaBytes, err) := proto_Marshal schema in
      match err with
      | Some err => mret (Err err)
      | None =>
        let req :=
          {| CreateCollectionRequest.DbName := dbName;
             CreateCollectionRequest.CollectionName := collectionName;
             CreateCollectionRequest.Schema := schemaBytes |} in
        '(resp, err) ← proxy_CreateCollection req;
        match err with
        | Some err => mret (Err err)
        | None =>
          if negb (GetCode resp =? 0) then
            mret (Err (fmt_Errorf (GetReason resp)))
          else
            let indexReq := indexRequestFor dbName collectionName metricType in
            proxy_CreateIndex indexReq;;
            let data := createdData collectionName dbName dimension metricType in
            let message := MsgCollectionCreateSuccess collectionName dimension in
            mret (Ok (NewToolResultWithData message (VObject data)))
        end
      end
  end.

Definition insertData {P} (args : ToolArgs) : M P (Res ToolResult.t) :=
  mret (Ok (NewToolResult MsgInsertPlaceholder)).

Definition queryData {P} (args : ToolArgs) : M P (Res ToolResult.t) :=
  mret (Ok (NewToolResult MsgQueryPlaceholder)).

Definition deleteData {P} (args : ToolArgs) : M P (Res ToolResult.t) :=
  mret (Ok (NewToolResult MsgDeletePlaceholder)).

Definition createIndex {P} (args : ToolArgs) : M P (Res ToolResult.t) :=
  mret (Ok (NewToolResult MsgCreateIndexPlaceholder)).

Definition describeIndex {P} (args : ToolArgs) : M P (Res ToolResult.t) :=
  mret (Ok (NewToolResult MsgDescribeIndexPlaceholder)).

(** The four callbacks that go on to read further responses of the
    proxy component ([ShowCollections], [DescribeCollection],
    [DropCollection], [Search]) are taken as given: the catalog only
    stores them and the dispatcher only calls them. *)
Class DelegatedTools (P : Type) : Type := {
  listCollections : ExecuteFunc P;
  describeCollection : ExecuteFunc P;
  dropCollection : ExecuteFunc P;
  searchVectors : ExecuteFunc P
}.

Definition requires (objectType objectPrivilege objectNameField : string)
  : PrivilegeRequirement.t :=
  {| PrivilegeRequirement.ObjectType := objectType;
     PrivilegeRequirement.ObjectPrivilege := objectPrivilege;
     PrivilegeRequirement.ObjectNameField := objectNameField |}.

(** The ten [tc.register(&Tool{...})] calls of [registerAll], in order. *)
Definition registeredTools {P} `{!ProxyComponent P} `{!Imports} `{!DelegatedTools P}
  : list (Tool.t P) := [
  (* Collection management tools *)
  {| Tool.Name := ToolCollectionListName;
     Tool.Title := ToolCollectionListTitle;
     Tool.Description := ToolCollectionListDescription;
     Tool.Execute := listCollections;
     Tool.InputSchema := Some schemaForListCollections;
     Tool.OutputSchema := Some outputSchemaForListCollections;
     Tool.RequiredPrivileges :=
       [requires ObjectTypeDatabase PrivShowCollections ParamDatabaseKey] |};
  {| Tool.Name := ToolCollectionCreateName;
     Tool.Title := ToolCollectionCreateTitle;
     Tool.Description := ToolCollectionCreateDescription;
     Tool.Execute := createCollection;
     Tool.InputSchema := Some schemaForCreateCollection;
     Tool.OutputSchema := Some outputSchemaForCreateCollection;
     Tool.RequiredPrivileges :=
       [requires ObjectTypeDatabase PrivCreateCollection ParamDatabaseKey] |};
  {| Tool.Name := ToolCollectionDescribeName;
     Tool.Title := ToolCollectionDescribeTitle;
     Tool.Description := ToolCollectionDescribeDescription;
     Tool.Execute := describeCollection;
     Tool.InputSchema := Some schemaForDescribeCollection;
     Tool.OutputSchema := None;
     Tool.RequiredPrivileges :=
       [requires ObjectTypeCollection PrivDescribeCollection ParamCollectionNameKey] |};
  {| Tool.Name := ToolCollectionDropName;
     Tool.Title := ToolCollectionDropTitle;
     Tool.Description := ToolCollectionDropDescription;
     Tool.Execute := dropCollection;
     Tool.InputSchema := Some simpleCollectionSchema;
     Tool.OutputSchema := None;
     Tool.RequiredPrivileges :=
       [requires ObjectTypeCollection PrivDropCollection ParamCollectionNameKey] |};
  (* Data operation tools *)
  {| Tool.Name := ToolDataInsertName;
     Tool.Title := ToolDataInsertTitle;
     Tool.Description := ToolDataInsertDescription;
     Tool.Execute := insertData;
     Tool.InputSchema := Some simpleCollectionSchema;
     Tool.OutputSchema := None;
     Tool.RequiredPrivileges :=
       [requires ObjectTypeCollection PrivInsert ParamCollectionNameKey] |};
  {| Tool.Name := ToolDataSearchName;
     Tool.Title := ToolDataSearchTitle;
     Tool.Description := ToolDataSearchDescription;
     Tool.Execute := searchVectors;
     Tool.InputSchema := Some simpleCollectionSchema;
     Tool.OutputSchema := None;
     Tool.RequiredPrivileges :=
       [requires ObjectTypeCollection PrivSearch ParamCollectionNameKey] |};
  {| Tool.Name := ToolDataQueryName;
     Tool.Title := ToolDataQueryTitle;
     Tool.Description := ToolDataQueryDescription;
     Tool.Execute := queryData;
     Tool.InputSchema := Some simpleCollectionSchema;
     Tool.OutputSchema := None;
     Tool.RequiredPrivileges :=
       [requires ObjectTypeCollection PrivQuery ParamCollectionNameKey] |};
  {| Tool.Name := ToolDataDeleteName;
     Tool.Title := ToolDataDeleteTitle;
     Tool.Description := ToolDataDeleteDescription;
     Tool.Execute := deleteData;
     Tool.InputSchema := Some simpleCollectionSchema;
     Tool.OutputSchema := None;
     Tool.RequiredPrivileges :=
       [requires ObjectTypeCollection PrivDelete ParamCollectionNameKey] |};
  (* Index management tools *)
  {| Tool.Name := ToolIndexCreateName;
     Tool.Title := ToolIndexCreateTitle;
     Tool.Description := ToolIndexCreateDescription;
     Tool.Execute := createIndex;
     Tool.InputSchema := Some simpleCollectionSchema;
     Tool.OutputSchema := None;
     Tool.RequiredPrivileges :=
       [requires ObjectTypeCollection PrivCreateIndex ParamCollectionNameKey] |};
  {| Tool.Name := ToolIndexDescribeName;
     Tool.Title := ToolIndexDescribeTitle;
     Tool.Description := ToolIndexDescribeDescription;
     Tool.Execute := describeIndex;
     Tool.InputSchema := Some simpleCollectionSchema;
     Tool.OutputSchema := None;
     Tool.RequiredPrivileges :=
       [requires ObjectTypeCollection PrivDescribeIndex ParamCollectionNameKey] |}
  ].

(** func (tc *ToolsCatalog) registerAll() *)
Definition registerAll {P} `{!ProxyComponent P} `{!Imports} `{!DelegatedTools P}
    (tc : ToolsCatalog.t P) : ToolsCatalog.t P :=
  foldl register tc registeredTools.

(** func NewToolsCatalog(proxy types.ProxyComponent) *ToolsCatalog *)
Definition NewToolsCatalog {P} `{!ProxyComponent P} `{!Imports} `{!DelegatedTools P}
  : ToolsCatalog.t P :=
  registerAll (ToolsCatalog.mk ∅).

(** ** server.go *)

Module McpServer.
Record t (P : Type) : Type := mk { catalog : ToolsCatalog.t P; enabled : bool }.
Arguments mk {P}.
Arguments catalog {P} _.
Arguments enabled {P} _.
End McpServer.

(** func NewMcpServer(proxy types.ProxyComponent) *McpServer *)
Definition NewMcpServer {P} `{!ProxyComponent P} `{!Imports} `{!DelegatedTools P}
  : McpServer.t P :=
  {| McpServer.catalog := NewToolsCatalog; McpServer.enabled := true |}.

(** *** Helper methods *)

Definition returnSuccess {P} (req : McpRequest.t) (result : ResultValue) : M P unit :=
  let response :=
    {| McpResponse.Jsonrpc := "2.0";
       McpResponse.ID := McpRequest.ID req;
       McpResponse.Result := Some result;
       McpResponse.Error := None |} in
  c_JSON StatusOK response.

Definition returnError {P} (req : McpRequest.t) (code : Z) (message : string)
    (data : Value) : M P unit :=
  let response :=
    {| McpResponse.Jsonrpc := "2.0";
       McpResponse.ID := McpRequest.ID req;
       McpResponse.Result := None;
       McpResponse.Error :=
         Some {| McpError.Code := code;
                 McpError.Message := message;
                 McpError.Data := data |} |} in
  c_JSON StatusOK response.

Definition returnToolResult {P} (req : McpRequest.t) (result : McpToolResult.t)
  : M P unit :=
  returnSuccess req (RToolResult result).

(** getProtocolVersion determines the protocol version to use based on
    request context *)
Definition getProtocolVersion (c : Context.t) (req : McpRequest.t) : string :=
  (* First check if protocol version is in request params (for initialize) *)
  let inParams :=
    match McpRequest.Params req !! ParamProtocolVersion with
    | Some (VString protocolVersion) => bool_decide (protocolVersion = "2025-03-26")
    | _ => false
    end in
  if inParams then "2025-03-26"
  (* Then check MCP-Protocol-Version header *)
  else if bool_decide (c_GetHeader c "MCP-Protocol-Version" = "2025-03-26")
  then "2025-03-26"
  (* Default to latest version *)
  else McpProtocolVersion.

Definition isProtocolVersionSupported (version : string) : bool :=
  let supportedVersions := ["2025-06-18"; "2025-03-26"; "2024-11-05"] in
  existsb (λ supported, bool_decide (supported = version)) supportedVersions.

(** *** The privilege filter *)

(** The inner loop of [checkToolPermission] over the role names, for one
    requirement; the result is [hasPermission]. *)
Fixpoint scanRoles {P} (roleNames : list string) (objectResource objectPrivilege : string)
  : M P bool :=
  match roleNames with
  | [] => mret false
  | roleName :: roleNames' =>
      '(isPermit, cached, version) ←
        GetPrivilegeCache roleName objectResource objectPrivilege;
      if cached && isPermit then mret true
      else
        (if negb cached
         then SetPrivilegeCache roleName objectResource objectPrivilege false version
         else mret tt);;
        scanRoles roleNames' objectResource objectPrivilege
  end.

(** The object name a requirement is checked on. *)
Definition objectNameFor (args : ToolArgs) (dbName : string)
    (privilege : PrivilegeRequirement.t) : string :=
  let objectName := GetString args (PrivilegeRequirement.ObjectNameField privilege) "*" in
  if bool_decide (PrivilegeRequirement.ObjectType privilege = "Database")
     && bool_decide (objectName = "*")
  then dbName
  else objectName.

(** fmt.Errorf("permission denied: %s privilege required on %s:%s", ...) *)
Definition permissionDenied (objectPrivilege objectType objectName : string) : error :=
  errors_New ("permission denied: " +:+ objectPrivilege +:+ " privilege required on "
              +:+ objectType +:+ ":" +:+ objectName).

(** The outer loop of [checkToolPermission] over the requirements. *)
Fixpoint checkPrivileges {P} `{!Imports} (privileges : list PrivilegeRequirement.t)
    (roleNames : list string) (dbName : string) (args : ToolArgs)
  : M P (option error) :=
  match privileges with
  | [] => mret None
  | privilege :: privileges' =>
      let objectName := objectNameFor args dbName privilege in
      let objectResource :=
        funcutil_PolicyForResource dbName
          (PrivilegeRequirement.ObjectType privilege) objectName in
      hasPermission ←
        scanRoles roleNames objectResource
          (PrivilegeRequirement.ObjectPrivilege privilege);
      if negb hasPermission then
        mret (Some (permissionDenied
                      (PrivilegeRequirement.ObjectPrivilege privilege)
                      (PrivilegeRequirement.ObjectType privilege) objectName))
      else checkPrivileges privileges' roleNames dbName args
  end.

(** func (s *McpServer) checkToolPermission(username, tool, args) error *)
Definition checkToolPermission {P} `{!Imports} (username : string) (tool : Tool.t P)
    (args : ToolArgs) : M P (option error) :=
  enabled ← AuthorizationEnabled_GetAsBool;
  if negb enabled then mret None
  else if (length (Tool.RequiredPrivileges tool) =? 0)%nat then mret None
  else
    '(roleNames, err) ← GetRole username;
    match err with
    | Some err => mret (Some err)
    | None =>
        let roleNames := roleNames ++ [util_RolePublic] in
        let dbName := GetString args "database" util_DefaultDBName in
        checkPrivileges (Tool.RequiredPrivileges tool) roleNames dbName args
    end.

(** The loop of [filterToolsByPermission], with [filtered] threaded. *)
Fixpoint filterLoop {P} `{!Imports} (s : McpServer.t P) (username : string)
    (tools filtered : list McpToolDescription.t) : M P (list McpToolDescription.t) :=
  match tools with
  | [] => mret filtered
  | toolDesc :: tools' =>
      match Get (McpServer.catalog s) (McpToolDescription.Name toolDesc) with
      | None => filterLoop s username tools' filtered
      | Some tool =>
          let args : gmap string Value := {[ "database" := VString util_DefaultDBName ]} in
          err ← checkToolPermission username tool args;
          match err with
          | None => filterLoop s username tools' (filtered ++ [toolDesc])
          | Some _ => filterLoop s username tools' filtered
          end
      end
  end.

(** func (s *McpServer) filterToolsByPermission(username, tools) *)
Definition filterToolsByPermission {P} `{!Imports} (s : McpServer.t P)
    (username : string) (tools : list McpToolDescription.t)
  : M P (list McpToolDescription.t) :=
  enabled ← AuthorizationEnabled_GetAsBool;
  if negb enabled then mret tools
  else filterLoop s username tools [].

(** *** Protocol handlers *)

(** [c.GetString("username")], with the anonymous fallback. *)
Definition callerOf (c : Context.t) : string :=
  let username := c_GetString c "username" in
  if bool_decide (username = "") then "anonymous" else username.

Definition handleInitialize {P} (c : Context.t) (req : McpRequest.t) : M P unit :=
  (* Determine protocol version to return based on client request *)
  let returnVersion := getProtocolVersion c req in
  (* Validate the requested version if explicitly provided *)
  let unsupported :=
    match McpRequest.Params req !! ParamProtocolVersion with
    | Some (VString protocolVersion) =>
        bool_decide (protocolVersion ≠ "2025-03-26")
        && bool_decide (protocolVersion ≠ "2025-06-18")
    | _ => false
    end in
  if unsupported then
    (* Only support 2025-03-26 and 2025-06-18 *)
    returnError req ErrorCodeInvalidParams "Unsupported protocol version"
      (VStringMap {[ "supported" := "2025-06-18, 2025-03-26" ]})
  else
    let result :=
      {| McpInitializeResult.ProtocolVersion := returnVersion;
         McpInitializeResult.Capabilities :=
           {| McpCapabilities.Tools :=
                Some {| ToolsCapability.ListChanged := false |};
              McpCapabilities.Resources :=
                Some {| ResourcesCapability.Subscribe := false;
                        ResourcesCapability.ListChanged := false |};
              McpCapabilities.Prompts :=
                Some {| PromptsCapability.ListChanged := false |};
              McpCapabilities.Logging := Some LoggingCapability.mk;
              McpCapabilities.Experimental :=
                Some {| ExperimentalCapability.StructuredOutput := true |} |};
         McpInitializeResult.ServerInfo :=
           {| McpServerInfo.Name := "milvus-mcp-server";
              McpServerInfo.Version := returnVersion;
              McpServerInfo.Title := "Milvus Vector Database MCP Server" |} |} in
    returnSuccess req (RInitialize result);;
    c_Header MCPHeaderProtocolVersion returnVersion.

Definition handleToolsList {P} `{!Imports} `{!MapRange} (s : McpServer.t P)
    (c : Context.t) (req : McpRequest.t) : M P unit :=
  let username := callerOf c in
  let tools := List (McpServer.catalog s) in
  filteredTools ← filterToolsByPermission s username tools;
  let result :=
    {| McpToolsListResult.Tools := filteredTools;
       McpToolsListResult.NextCursor := "" |} in
  let protocolVersion := getProtocolVersion c req in
  returnSuccess req (RToolsList result);;
  c_Header MCPHeaderProtocolVersion protocolVersion.

Definition textContent (text : string) : list McpContent.t :=
  [ {| McpContent.Type_ := "text"; McpContent.Text := text |} ].

(** The arguments of a tools/call request: the object under
    "arguments", or an empty map when there is none. *)
Definition argumentsOf (req : McpRequest.t) : gmap string Value :=
  match McpRequest.Params req !! "arguments" with
  | Some (VObject arguments) => arguments
  | _ => ∅
  end.

Definition handleToolsCall {P} `{!Imports} (s : McpServer.t P)
    (c : Context.t) (req : McpRequest.t) : M P unit :=
  let '(toolName, ok) :=
    match McpRequest.Params req !! "name" with
    | Some (VString v) => (v, true)
    | _ => ("", false)
    end in
  if negb ok || bool_decide (toolName = "") then
    returnError req ErrorCodeInvalidParams "Tool name is required" VNil
  else
    let toolArgs := argumentsOf req in
    (* Get tool from catalog *)
    match Get (McpServer.catalog s) toolName with
    | None =>
        returnError req ErrorCodeMethodNotFound ("Tool not found: " +:+ toolName) VNil
    | Some tool =>
        (* Get user info from global auth middleware (if auth is enabled) *)
        let username := callerOf c in
        (* Check tool permission *)
        err ← checkToolPermission username tool toolArgs;
        match err with
        | Some err =>
            returnToolResult req
              {| McpToolResult.Content := textContent ("Permission denied: " +:+ Error err);
                 McpToolResult.IsError := true;
                 McpToolResult.StructuredContent := VNil |}
        | None =>
            (* Execute tool *)
            r ← Tool.Execute tool toolArgs;
            match r with
            | Err err =>
                returnToolResult req
                  {| McpToolResult.Content := textContent ("Error: " +:+ Error err);
                     McpToolResult.IsError := true;
                     McpToolResult.StructuredContent := VNil |}
            | Ok result =>
                (* Return the tool result including structured content *)
                let mcpResult :=
                  {| McpToolResult.Content := ToolResult.Content result;
                     McpToolResult.IsError := ToolResult.IsError result;
                     McpToolResult.StructuredContent := ToolResult.StructuredContent result |} in
                returnToolResult req mcpResult;;
                let protocolVersion := getProtocolVersion c req in
                c_Header MCPHeaderProtocolVersion protocolVersion
            end
        end
    end.

Definition handlePing {P} `{!Imports} (s : McpServer.t P)
    (c : Context.t) (req : McpRequest.t) : M P unit :=
  let protocolVersion := getProtocolVersion c req in
  now ← time_Now;
  let result : gmap string Value :=
    <["status" := VString "healthy"]>
    (<["timestamp" := VString (time_Format_RFC3339 now)]>
    (<["protocolVersion" := VString protocolVersion]>
    (<["serverVersion" := VString protocolVersion]>
    (<["toolsCount" :=
         VInt (Z.of_nat (size (ToolsCatalog.tools (McpServer.catalog s))))]> ∅)))) in
  returnSuccess req (RMap result);;
  c_Header MCPHeaderProtocolVersion protocolVersion.

Definition handleNotificationsInitialized {P} (c : Context.t) (req : McpRequest.t)
  : M P unit :=
  let result : gmap string Value := {[ "acknowledged" := VBool true ]} in
  let protocolVersion := getProtocolVersion c req in
  returnSuccess req (RMap result);;
  c_Header MCPHeaderProtocolVersion protocolVersion.

Definition handlePromptsList {P} (c : Context.t) (req : McpRequest.t) : M P unit :=
  (* Return empty prompts list *)
  let result : gmap string Value := {[ "prompts" := VArray [] ]} in
  let protocolVersion := getProtocolVersion c req in
  returnSuccess req (RMap result);;
  c_Header MCPHeaderProtocolVersion protocolVersion.

Definition handleResourcesList {P} (c : Context.t) (req : McpRequest.t) : M P unit :=
  (* Return empty resources list *)
  let result : gmap string Value := {[ "resources" := VArray [] ]} in
  let protocolVersion := getProtocolVersion c req in
  returnSuccess req (RMap result);;
  c_Header MCPHeaderProtocolVersion protocolVersion.

Definition handleResourceTemplatesList {P} (c : Context.t) (req : McpRequest.t)
  : M P unit :=
  (* Return empty resource templates list *)
  let result : gmap string Value := {[ "resourceTemplates" := VArray [] ]} in
  let protocolVersion := getProtocolVersion c req in
  returnSuccess req (RMap result);;
  c_Header MCPHeaderProtocolVersion protocolVersion.

(** handleMcpRequest is the main entry point for all MCP requests *)
Definition handleMcpRequest {P} `{!Imports} `{!MapRange} (s : McpServer.t P)
    (c : Context.t) : M P unit :=
  let '(req, err) := ShouldBindJSON (Context.Body c) in
  match err with
  | Some err =>
      (* For parse errors, we can't get the request ID *)
      let response :=
        {| McpResponse.Jsonrpc := "2.0";
           McpResponse.ID := VNil;
           McpResponse.Result := None;
           McpResponse.Error :=
             Some {| McpError.Code := ErrorCodeParseError;
                     McpError.Message := "Parse error";
                     McpError.Data := VString (Error err) |} |} in
      c_JSON StatusOK response
  | None =>
      (* Route to appropriate handler based on method *)
      let method := McpRequest.Method req in
      if bool_decide (method = "initialize") then handleInitialize c req
      else if bool_decide (method = "tools/list") then handleToolsList s c req
      else if bool_decide (method = "tools/call") then handleToolsCall s c req
      else if bool_decide (method = "prompts/list") then handlePromptsList c req
      else if bool_decide (method = "resources/list") then handleResourcesList c req
      else if bool_decide (method = "resources/templates/list")
           then handleResourceTemplatesList c req
      else if bool_decide (method = "ping") then handlePing s c req
      else if bool_decide (method = "notifications/initialized")
           then handleNotificationsInitialized c req
      else
        returnError req ErrorCodeMethodNotFound ("Method not found: " +:+ method) VNil
  end.

(** ** Reading a response off the world *)

(** The response a handler wrote, when it wrote exactly one onto a
    context that had none. *)
Definition responseOf {P} (w : World P) : option McpResponse.t :=
  match written w with
  | [(_, response)] => Some response
  | _ => None
  end.

(** The protocol-version header of the response, if set. *)
Definition protocolHeaderOf {P} (w : World P) : option string :=
  respHeader w !! MCPHeaderProtocolVersion.

(** ** Conditions of the specification *)

(** The cache key a requirement is checked under for a role. *)
Definition resourceFor `{!Imports} (args : ToolArgs) (dbName : string)
    (privilege : PrivilegeRequirement.t) : string :=
  funcutil_PolicyForResource dbName (PrivilegeRequirement.ObjectType privilege)
    (objectNameFor args dbName privilege).

(** Some role of the role set has an affirmative cached entry for the
    requirement's (role, resource, privilege) triple. *)
Definition hasAffirmativeEntry `{!Imports}
    (cache : gmap (string * string * string) bool) (roleSet : list string)
    (args : ToolArgs) (dbName : string) (privilege : PrivilegeRequirement.t) : Prop :=
  Exists (λ roleName,
            cache !! (roleName, resourceFor args dbName privilege,
                      PrivilegeRequirement.ObjectPrivilege privilege) = Some true)
         roleSet.

(** [cache'] is [cache] with negative placeholders added on keys that
    had no entry, and nothing else changed. *)
Definition placeholdersAdded (cache cache' : gmap (string * string * string) bool) : Prop :=
  ∀ key, cache' !! key = cache !! key
         ∨ (cache !! key = None ∧ cache' !! key = Some false).

(** Every tool of the catalog sits under its own name, as [register]
    files it. *)
Definition keyedByName {P} (tc : ToolsCatalog.t P) : Prop :=
  ∀ name tool, ToolsCatalog.tools tc !! name = Some tool → Tool.Name tool = name.

(** The principal holds no cached affirmative privilege: no role bound
    to it, nor the public role, has an affirmative entry. *)
Definition noAffirmativePrivilege {P} `{!Imports} (w : World P) (username : string) : Prop :=
  ∀ roleName object objectPrivilege,
    roleName ∈ (userRoles w username).1 ++ [util_RolePublic] →
    priCache w !! (roleName, object, objectPrivilege) ≠ Some true.

#[global] Instance hasAffirmativeEntry_dec `{!Imports}
    (cache : gmap (string * string * string) bool) (roleSet : list string)
    (args : ToolArgs) (dbName : string) (privilege : PrivilegeRequirement.t) :
  Decision (hasAffirmativeEntry cache roleSet args dbName privilege).
Proof. unfold hasAffirmativeEntry. apply _. Defined.



(** [cache'] is exactly [cache] with a negative placeholder on each of
    [keys] that had no entry: entries that existed are kept, every
    missing key among [keys] now maps to false, and no other key has an
    entry it had not. *)
Definition placeholdersOn (cache : gmap (string * string * string) bool)
    (keys : list (string * string * string))
    (cache' : gmap (string * string * string) bool) : Prop :=
  ∀ key,
    cache' !! key =
      match cache !! key with
      | Some isPermit => Some isPermit
      | None => if bool_decide (key ∈ keys) then Some false else None
      end.

(** ** A concrete deployment, used in the examples *)

Definition demoImports : Imports :=
  {| util_DefaultDBName := "default";
     util_RolePublic := "public";
     funcutil_PolicyForResource :=
       λ dbName objectType objectName,
         objectType +:+ "-" +:+ dbName +:+ "." +:+ objectName;
     proto_Marshal := λ _, ([], None);
     fmt_Errorf := errors_New;
     time_Format_RFC3339 := itoa;
     ShouldBindJSON :=
       λ body,
         let req :=
           {| McpRequest.Jsonrpc := "2.0"; McpRequest.ID := VFloat64 1%float;
              McpRequest.Method := body; McpRequest.Params := ∅ |} in
         if bool_decide (body = "") then (req, Some (errors_New "EOF"))
         else (req, None) |}.

(** A proxy component that creates every collection and fails every
    index creation; its state counts the calls received. *)
Definition demoProxy : ProxyComponent nat :=
  {| CreateCollection :=
       λ n _, ((Some {| Status.Code := 0; Status.Reason := "" |}, None), S n);
     CreateIndex :=
       λ n _, ((None, Some (errors_New "index node unavailable")), S n) |}.

Definition demoTools : DelegatedTools nat :=
  {| listCollections := λ _, mret (Ok (NewToolResult "listed"));
     describeCollection := λ _, mret (Ok (NewToolResult "described"));
     dropCollection := λ _, mret (Ok (NewToolResult "dropped"));
     searchVectors := λ _, mret (Err (errors_New "vectors cannot be empty")) |}.

Definition demoRange : MapRange :=
  {| rangeOver := λ V m, map_to_list m;
     rangeOver_perm := λ V m, Permutation_refl (map_to_list m) |}.

(** Another order of iteration: the entries the other way round. *)
Definition demoReverseRange : MapRange :=
  {| rangeOver := λ V m, reverse (map_to_list m);
     rangeOver_perm := λ V m, reverse_Permutation (map_to_list m) |}.

Definition demoServer : McpServer.t nat :=
  @NewMcpServer nat demoProxy demoImports demoTools.

(** Authorization is on; alice holds the role admin, which is granted
    ShowCollections on the default database; nobody else holds a role. *)
Definition demoWorld : World nat :=
  {| AuthorizationEnabled := true;
     userRoles :=
       λ username,
         if bool_decide (username = "alice") then (["admin"], None) else ([], None);
     priCache := {[ ("admin", "Database-default.default", "ShowCollections") := true ]};
     priCacheVersion := 7;
     proxy := 0%nat;
     proxyCalls := [];
     clock := 1700000000;
     written := [];
     respHeader := ∅ |}.

Definition demoContext (username : string) (version : string) : Context.t :=
  {| Context.Header :=
       if bool_decide (version = "") then ∅ else {[ MCPHeaderProtocolVersion := version ]};
     Context.Keys :=
       if bool_decide (username = "") then ∅ else {[ "username" := VString username ]};
     Context.Body := "" |}.

Definition demoRequest (method : string) (params : gmap string Value) : McpRequest.t :=
  {| McpRequest.Jsonrpc := "2.0"; McpRequest.ID := VString "req-1";
     McpRequest.Method := method; McpRequest.Params := params |}.

(** The demo world with one more principal: carol holds the role guest,
    which has no cache entry, before the role admin. *)
Definition demoTeamWorld : World nat :=
  mkWorld true
          (λ username,
             if bool_decide (username = "carol") then (["guest"; "admin"], None)
             else userRoles demoWorld username)
          (priCache demoWorld) (priCacheVersion demoWorld)
          (proxy demoWorld) (proxyCalls demoWorld) (clock demoWorld)
          (written demoWorld) (respHeader demoWorld).

(** The first tool [registerAll] registers, collection.list. *)
Definition demoListTool : Tool.t nat :=
  match @registeredTools nat demoProxy demoImports demoTools with
  | tool :: _ => tool
  | [] =>
      {| Tool.Name := ""; Tool.Title := ""; Tool.Description := "";
         Tool.Execute := insertData; Tool.InputSchema := None;
         Tool.OutputSchema := None; Tool.RequiredPrivileges := [] |}
  end.

(** ** Further parts of the package *)

(** func GetStringSlice(args map[string]interface{}, key string) []string
    The elements of the array under [key] that are strings, in order;
    a nil slice and an empty one are both the empty list. *)
Definition GetStringSlice (args : ToolArgs) (key : string) : list string :=
  match args !! key with
  | Some (VArray v) =>
      omap (λ item, match item with VString s => Some s | _ => None end) v
  | _ => []
  end.

(** [fmt.Sprintf(MsgCollectionDropSuccess, name)], with
    MsgCollectionDropSuccess = "Collection '%s' dropped successfully". *)
Definition MsgCollectionDropSuccess (name : string) : string :=
  "Collection '" +:+ name +:+ "' dropped successfully".

Module DropCollectionRequest.
Record t : Type := mk { DbName : string; CollectionName : string }.
End DropCollectionRequest.

(** The method of [types.ProxyComponent] that [dropCollection] calls. *)
Class ProxyDropCollection (P : Type) : Type := {
  DropCollection :
    P → DropCollectionRequest.t → (option Status.t * option error) * P
}.

(** The call moves the component's state on; the call log of the world
    keeps to the two calls of [createCollection]. *)
Definition proxy_DropCollection {P} `{!ProxyDropCollection P}
    (req : DropCollectionRequest.t) : M P (option Status.t * option error) :=
  λ w, let '(r, p') := DropCollection (proxy w) req in
       (r, set_proxy w p' (proxyCalls w)).

(** The structured payload of a successful [dropCollection]. *)
Definition droppedData (collectionName dbName : string) : gmap string Value :=
  <["collection_name" := VString collectionName]>
  (<["database" := VString dbName]>
  (<["status" := VString "dropped"]> ∅)).

Module Catalog.
(** func (tc *ToolsCatalog) dropCollection(ctx, args) *)
Definition dropCollection {P} `{!ProxyDropCollection P} `{!Imports} (args : ToolArgs)
  : M P (Res ToolResult.t) :=
  match Require_ args ["collection_name"] with
  | Some err => mret (Err err)
  | None =>
    let dbName := GetString args "database" "default" in
    let collectionName := GetString args "collection_name" "" in
    '(resp, err) ←
      proxy_DropCollection
        {| DropCollectionRequest.DbName := dbName;
           DropCollectionRequest.CollectionName := collectionName |};
    match err with
    | Some err => mret (Err err)
    | None =>
      if negb (GetCode resp =? 0) then
        mret (Err (fmt_Errorf (GetReason resp)))
      else
        let data := droppedData collectionName dbName in
        let message := MsgCollectionDropSuccess collectionName in
        mret (Ok (NewToolResultWithData message (VObject data)))
    end
  end.
End Catalog.

(** ** Further conditions *)

(** Every name a schema requires is one of its declared parameters. *)
Definition requiredDeclared (s : ToolSchema.t) : Prop :=
  ∀ name, name ∈ ToolSchema.Required s → is_Some (ToolSchema.Properties s !! name).

(** A callback that writes nothing onto the response: it has no
    [gin.Context] to write to. *)
Definition leavesResponse {P} (execute : ExecuteFunc P) : Prop :=
  ∀ args w, written (execute args w).2 = written w
            ∧ respHeader (execute args w).2 = respHeader w.

(** [w'] has the authorization switch, the role bindings and the cache
    entries of [w], and possibly more negative placeholders: what [w]
    can become while checks run and nobody grants or revokes. *)
Definition afterPlaceholders {P} (w w' : World P) : Prop :=
  AuthorizationEnabled w' = AuthorizationEnabled w
  ∧ userRoles w' = userRoles w
  ∧ placeholdersAdded (priCache w) (priCache w').

(** Whether the filter of a listing keeps [toolDesc] when its check
    runs in world [w]: the name is registered and the check on the
    synthetic arguments returns no error. *)
Definition listable {P} `{!Imports} (s : McpServer.t P) (username : string)
    (w : World P) (toolDesc : McpToolDescription.t) : bool :=
  match Get (McpServer.catalog s) (McpToolDescription.Name toolDesc) with
  | Some tool =>
      match (checkToolPermission username tool
               {[ "database" := VString util_DefaultDBName ]} w).1 with
      | None => true
      | Some _ => false
      end
  | None => false
  end.

(** The description names a registered tool that declares no privilege
    requirement. *)
Definition namesOpenTool {P} (s : McpServer.t P) (toolDesc : McpToolDescription.t) : bool :=
  match Get (McpServer.catalog s) (McpToolDescription.Name toolDesc) with
  | Some tool => (length (Tool.RequiredPrivileges tool) =? 0)%nat
  | None => false
  end.

(** The success and error envelopes of [returnSuccess] and
    [returnError]. *)
Definition successEnvelope (id : Value) (result : ResultValue) : McpResponse.t :=
  {| McpResponse.Jsonrpc := "2.0"; McpResponse.ID := id;
     McpResponse.Result := Some result; McpResponse.Error := None |}.

Definition errorEnvelope (id : Value) (code : Z) (message : string) (data : Value)
  : McpResponse.t :=
  {| McpResponse.Jsonrpc := "2.0"; McpResponse.ID := id;
     McpResponse.Result := None;
     McpResponse.Error :=
       Some {| McpError.Code := code; McpError.Message := message;
               McpError.Data := data |} |}.

(** A proxy component for the examples that drops every collection but
    the one named locked. *)
Definition demoDropProxy : ProxyDropCollection nat :=
  {| DropCollection :=
       λ n req,
         if bool_decide (DropCollectionRequest.CollectionName req = "locked")
         then ((Some {| Status.Code := 65535; Status.Reason := "collection is locked" |},
                None), S n)
         else ((Some {| Status.Code := 0; Status.Reason := "" |}, None), S n) |}.

(** The demo world with the authorization switch off. *)
Definition demoOpenWorld : World nat :=
  mkWorld false (userRoles demoWorld) (priCache demoWorld) (priCacheVersion demoWorld)
          (proxy demoWorld) (proxyCalls demoWorld) (clock demoWorld)
          (written demoWorld) (respHeader demoWorld).

(** The demo world with the role store out of reach. *)
Definition demoBrokenWorld : World nat :=
  mkWorld true (λ _, ([], Some (errors_New "meta cache not ready")))
          (<[("public", "Database-default.default", "ShowCollections") := true]>
             (priCache demoWorld))
          (priCacheVersion demoWorld)
          (proxy demoWorld) (proxyCalls demoWorld) (clock demoWorld)
          (written demoWorld) (respHeader demoWorld).

(** A context whose body carries the given text; the demo binding reads
    a non-empty body as the method of a request without parameters. *)
Definition demoBodyContext (body : string) : Context.t :=
  {| Context.Header := ∅; Context.Keys := ∅; Context.Body := body |}.

(** * Properties *)

Ltac munfold := unfold mbind, M_bind, mret, M_ret in *.

Section PrivilegeFilter.
Context {P : Type} {imports : Imports}.
Implicit Types (w : World P) (cache : gmap (string * string * string) bool).

Lemma placeholdersAdded_refl cache : placeholdersAdded cache cache.
Proof. intros key. by left. Qed.

Lemma placeholdersAdded_trans cache1 cache2 cache3 :
  placeholdersAdded cache1 cache2 → placeholdersAdded cache2 cache3 →
  placeholdersAdded cache1 cache3.
Proof.
  intros H12 H23 key.
  destruct (H12 key) as [E12 | [N1 F2]], (H23 key) as [E23 | [N2 F3]].
  - left. congruence.
  - right. split; congruence.
  - right. split; congruence.
  - congruence.
Qed.

Lemma placeholdersAdded_insert cache key :
  cache !! key = None → placeholdersAdded cache (<[key := false]> cache).
Proof.
  intros Hnone key'. destruct (decide (key = key')) as [<- | Hne].
  - right. by rewrite lookup_insert_eq.
  - left. by rewrite lookup_insert_ne.
Qed.

Lemma placeholdersAdded_affirmative cache cache' key :
  placeholdersAdded cache cache' →
  cache' !! key = Some true ↔ cache !! key = Some true.
Proof.
  intros H. destruct (H key) as [E | [N F]]; [by rewrite E |].
  rewrite N, F. split; discriminate.
Qed.

Lemma placeholdersAdded_negative cache cache' key :
  placeholdersAdded cache cache' →
  cache !! key = Some false → cache' !! key = Some false.
Proof. intros H Hk. destruct (H key) as [E | [N F]]; congruence. Qed.

Lemma set_priCache_id w : set_priCache w (priCache w) = w.
Proof. by destruct w. Qed.

(** The scan over the roles for one requirement. *)
Lemma scanRoles_spec roleNames object objectPrivilege w :
  let '(hasPermission, w') := scanRoles roleNames object objectPrivilege w in
  w' = set_priCache w (priCache w')
  ∧ placeholdersAdded (priCache w) (priCache w')
  ∧ (hasPermission = true ↔
       Exists (λ roleName, priCache w !! (roleName, object, objectPrivilege) = Some true)
              roleNames)
  ∧ (hasPermission = false →
       ∀ roleName, roleName ∈ roleNames →
         priCache w' !! (roleName, object, objectPrivilege) = Some false).
Proof.
  revert w. induction roleNames as [| roleName roleNames IH]; intros w; simpl.
  - munfold. split_and!.
    + by rewrite set_priCache_id.
    + apply placeholdersAdded_refl.
    + split; [discriminate | by intros ?%Exists_nil].
    + intros _ r Hr. by apply elem_of_nil in Hr.
  - munfold. unfold GetPrivilegeCache at 1.
    destruct (priCache w !! (roleName, object, objectPrivilege)) as [[|]|] eqn:Hk; simpl.
    + (* cached, affirmative *)
      split_and!.
      * by rewrite set_priCache_id.
      * apply placeholdersAdded_refl.
      * split; [intros _; by apply Exists_cons_hd | done].
      * discriminate.
    + (* cached, negative *)
      specialize (IH w).
      destruct (scanRoles roleNames object objectPrivilege w) as [b w'].
      destruct IH as (Hw & Hp & Hb & Hf). split_and!; [done | done | |].
      * rewrite Hb, Exists_cons. split; [tauto |]. intros [? | ?]; [congruence | done].
      * intros Hfalse r [-> | Hr]%elem_of_cons; [| by apply Hf].
        by apply (placeholdersAdded_negative (priCache w)).
    + (* not cached: a placeholder is written *)
      unfold SetPrivilegeCache. 
      set (w1 := set_priCache w _).
      specialize (IH w1).
      destruct (scanRoles roleNames object objectPrivilege w1) as [b w'].
      destruct IH as (Hw & Hp & Hb & Hf).
      assert (H1 : placeholdersAdded (priCache w) (priCache w1))
        by (by apply placeholdersAdded_insert).
      split_and!.
      * rewrite Hw. done.
      * by eapply placeholdersAdded_trans.
      * rewrite Hb, Exists_cons. 
        split.
        -- intros Hex. right. eapply Exists_impl; [exact Hex |].
           intros r Hr. by apply (placeholdersAdded_affirmative _ _ _ H1).
        -- intros [? | Hex]; [congruence |].
           eapply Exists_impl; [exact Hex |].
           intros r Hr. by apply (placeholdersAdded_affirmative _ _ _ H1).
      * intros Hfalse r [-> | Hr]%elem_of_cons; [| by apply Hf].
        apply (placeholdersAdded_negative (priCache w1)); [done |].
        subst w1. simpl. by rewrite lookup_insert_eq.
Qed.

(** The loop over the requirements: it stops at the first requirement
    no role satisfies, with every role's entry for it negative. *)
Lemma checkPrivileges_spec privileges roleNames dbName args w :
  let '(err, w') := checkPrivileges privileges roleNames dbName args w in
  w' = set_priCache w (priCache w')
  ∧ placeholdersAdded (priCache w) (priCache w')
  ∧ match err with
    | None =>
        Forall (hasAffirmativeEntry (priCache w) roleNames args dbName) privileges
    | Some e =>
        ∃ pre privilege post,
          privileges = pre ++ privilege :: post
          ∧ Forall (hasAffirmativeEntry (priCache w) roleNames args dbName) pre
          ∧ ¬ hasAffirmativeEntry (priCache w) roleNames args dbName privilege
          ∧ e = permissionDenied
                  (PrivilegeRequirement.ObjectPrivilege privilege)
                  (PrivilegeRequirement.ObjectType privilege)
                  (objectNameFor args dbName privilege)
          ∧ ∀ roleName, roleName ∈ roleNames →
              priCache w' !! (roleName, resourceFor args dbName privilege,
                              PrivilegeRequirement.ObjectPrivilege privilege)
              = Some false
    end.
Proof.
  revert w. induction privileges as [| privilege privileges IH]; intros w; simpl.
  - munfold. split_and!; [by rewrite set_priCache_id | apply placeholdersAdded_refl | done].
  - munfold.
    pose proof (scanRoles_spec roleNames
                  (funcutil_PolicyForResource dbName
                     (PrivilegeRequirement.ObjectType privilege)
                     (objectNameFor args dbName privilege))
                  (PrivilegeRequirement.ObjectPrivilege privilege) w) as Hscan.
    destruct (scanRoles _ _ _ w) as [hasPermission w1].
    destruct Hscan as (Hw1 & Hp1 & Hyes & Hno).
    destruct hasPermission; simpl.
    + specialize (IH w1).
      destruct (checkPrivileges privileges roleNames dbName args w1) as [err w'].
      destruct IH as (Hw' & Hp' & Herr).
      assert (Hsame : ∀ q, hasAffirmativeEntry (priCache w1) roleNames args dbName q
                           ↔ hasAffirmativeEntry (priCache w) roleNames args dbName q).
      { intros q. unfold hasAffirmativeEntry. rewrite !Exists_exists.
        split; intros (r & Hin & Hr); exists r; (split; [done |]);
          by apply (placeholdersAdded_affirmative _ _ _ Hp1). }
      split_and!.
      * rewrite Hw', Hw1. done.
      * by eapply placeholdersAdded_trans.
      * destruct err as [e |].
        -- destruct Herr as (pre & q & post & -> & Hpre & Hq & -> & Hneg).
           exists (privilege :: pre), q, post. split_and!; [done | | | done | done].
           ++ constructor; [by apply Hyes |].
              eapply Forall_impl; [exact Hpre |]. intros ?. apply Hsame.
           ++ by rewrite <- Hsame.
        -- constructor; [by apply Hyes |].
           eapply Forall_impl; [exact Herr |]. intros ?. apply Hsame.
    + split_and!; [done | done |].
      exists [], privilege, privileges. split_and!; [done | done | | done | by apply Hno].
      intros Hex. apply Hyes in Hex. discriminate.
Qed.


Lemma placeholdersOn_added cache keys cache' :
  placeholdersOn cache keys cache' → placeholdersAdded cache cache'.
Proof.
  intros Hon key. rewrite (Hon key). destruct (cache !! key); [by left |].
  case_bool_decide; [by right | by left].
Qed.








End PrivilegeFilter.

Section ListingFilter.
Context {P : Type} {imports : Imports}.
Implicit Types (w : World P) (s : McpServer.t P).

(** Whatever the role lookup returns, a check only adds placeholders,
    and under enabled authorization it passes only for a tool without
    requirements or with every requirement affirmatively cached. *)
Lemma checkToolPermission_world username (tool : Tool.t P) args w :
  let '(err, w') := checkToolPermission username tool args w in
  w' = set_priCache w (priCache w')
  ∧ placeholdersAdded (priCache w) (priCache w')
  ∧ (err = None → AuthorizationEnabled w = true →
     Tool.RequiredPrivileges tool = []
     ∨ Forall (hasAffirmativeEntry (priCache w)
                 ((userRoles w username).1 ++ [util_RolePublic]) args
                 (GetString args "database" util_DefaultDBName))
              (Tool.RequiredPrivileges tool)).
Proof.
  unfold checkToolPermission, AuthorizationEnabled_GetAsBool, GetRole. munfold.
  destruct (AuthorizationEnabled w) eqn:Hauth; simpl.
  2: { split_and!; [by rewrite set_priCache_id | apply placeholdersAdded_refl | done]. }
  destruct (Nat.eqb_spec (length (Tool.RequiredPrivileges tool)) 0) as [Hlen | Hlen].
  { apply nil_length_inv in Hlen.
    split_and!; [by rewrite set_priCache_id | apply placeholdersAdded_refl | by left]. }
  destruct (userRoles w username) as [roles [e |]] eqn:Hroles; simpl.
  { split_and!; [by rewrite set_priCache_id | apply placeholdersAdded_refl | done]. }
  pose proof (checkPrivileges_spec (Tool.RequiredPrivileges tool)
                (roles ++ [util_RolePublic])
                (GetString args "database" util_DefaultDBName) args w) as Hchk.
  destruct (checkPrivileges _ _ _ args w) as [err w'].
  destruct Hchk as (Hw' & Hp' & Herr).
  split_and!; [done | done |]. intros -> _. by right.
Qed.

Lemma noAffirmativePrivilege_denies username w args dbName privilege :
  noAffirmativePrivilege w username →
  ¬ hasAffirmativeEntry (priCache w) ((userRoles w username).1 ++ [util_RolePublic])
      args dbName privilege.
Proof.
  intros Hnone (roleName & Hin & Hentry)%Exists_exists. by eapply Hnone.
Qed.

Lemma noAffirmativePrivilege_preserved username w w' :
  w' = set_priCache w (priCache w') →
  placeholdersAdded (priCache w) (priCache w') →
  noAffirmativePrivilege w username → noAffirmativePrivilege w' username.
Proof.
  intros Hw Hp Hnone roleName object objectPrivilege Hin Hentry.
  rewrite Hw in Hin. simpl in Hin.
  apply (placeholdersAdded_affirmative _ _ _ Hp) in Hentry. by eapply Hnone.
Qed.

(** The filter loop keeps a sublist of the descriptions it is given,
    appended to what it had; a description it keeps for a principal
    without affirmative privileges names a tool without requirements. *)
Lemma filterLoop_spec s username tools filtered w :
  let '(out, w') := filterLoop s username tools filtered w in
  w' = set_priCache w (priCache w')
  ∧ placeholdersAdded (priCache w) (priCache w')
  ∧ ∃ kept,
      out = filtered ++ kept
      ∧ kept `sublist_of` tools
      ∧ (AuthorizationEnabled w = true →
         noAffirmativePrivilege w username →
         ∀ toolDesc tool,
           toolDesc ∈ kept →
           Get (McpServer.catalog s) (McpToolDescription.Name toolDesc) = Some tool →
           Tool.RequiredPrivileges tool = []).
Proof.
  revert filtered w. induction tools as [| toolDesc tools IH]; intros filtered w; simpl.
  - munfold. split_and!; [by rewrite set_priCache_id | apply placeholdersAdded_refl |].
    exists []. split_and!; [by rewrite app_nil_r | done |].
    intros _ _ d tool Hd. by apply elem_of_nil in Hd.
  - destruct (Get (McpServer.catalog s) (McpToolDescription.Name toolDesc))
      as [tool |] eqn:Hget.
    2: { specialize (IH filtered w).
         destruct (filterLoop s username tools filtered w) as [out w'].
         destruct IH as (Hw' & Hp' & kept & -> & Hsub & Hnone).
         split_and!; [done | done |]. exists kept.
         split_and!; [done | by apply sublist_cons | done]. }
    munfold.
    pose proof (checkToolPermission_world username tool
                  {[ "database" := VString util_DefaultDBName ]} w) as Hchk.
    destruct (checkToolPermission username tool _ w) as [err w1].
    destruct Hchk as (Hw1 & Hp1 & Hgrant).
    assert (Hauth1 : AuthorizationEnabled w1 = AuthorizationEnabled w)
      by (by rewrite Hw1).
    destruct err as [e |].
    + specialize (IH filtered w1).
      destruct (filterLoop s username tools filtered w1) as [out w'].
      destruct IH as (Hw' & Hp' & kept & -> & Hsub & Hnone).
      split_and!; [by rewrite Hw', Hw1 | by eapply placeholdersAdded_trans |].
      exists kept. split_and!; [done | by apply sublist_cons |].
      intros Hauth Hno. apply Hnone; [congruence |].
      by eapply noAffirmativePrivilege_preserved.
    + specialize (IH (filtered ++ [toolDesc]) w1).
      destruct (filterLoop s username tools (filtered ++ [toolDesc]) w1) as [out w'].
      destruct IH as (Hw' & Hp' & kept & -> & Hsub & Hnone).
      split_and!; [by rewrite Hw', Hw1 | by eapply placeholdersAdded_trans |].
      exists (toolDesc :: kept).
      split_and!; [by rewrite <- app_assoc | by apply sublist_skip |].
      intros Hauth Hno d tool' [-> | Hd]%elem_of_cons Hget'.
      * assert (tool' = tool) as -> by congruence.
        destruct (Hgrant eq_refl Hauth) as [Hnil | Hall]; [done |].
        destruct (Tool.RequiredPrivileges tool) as [| p0 ps]; [done |].
        apply Forall_cons in Hall as [Hp0 _].
        by apply noAffirmativePrivilege_denies in Hp0.
      * eapply Hnone; [congruence | | exact Hd | exact Hget'].
        by eapply noAffirmativePrivilege_preserved.
Qed.
End ListingFilter.

Section Dispatcher.
Context {P : Type} {proxyComponent : ProxyComponent P} {imports : Imports}
        {delegated : DelegatedTools P} {range : MapRange}.
Implicit Types (w : World P) (s : McpServer.t P) (c : Context.t) (req : McpRequest.t).

(** The dispatcher hands a decoded request to the handler of its
    method. *)
Lemma handleMcpRequest_routes s c req :
  ShouldBindJSON (Context.Body c) = (req, None) →
  (McpRequest.Method req = "initialize" →
   handleMcpRequest s c = handleInitialize c req)
  ∧ (McpRequest.Method req = "tools/list" →
     handleMcpRequest s c = handleToolsList s c req)
  ∧ (McpRequest.Method req = "tools/call" →
     handleMcpRequest s c = handleToolsCall s c req)
  ∧ (McpRequest.Method req = "ping" →
     handleMcpRequest s c = handlePing s c req).
Proof.
  intros Hbind. unfold handleMcpRequest. rewrite Hbind.
  split_and!; intros ->; reflexivity.
Qed.

(** What [getProtocolVersion] computes: the older version when the
    request parameter or the request header names it, else the latest. *)
Lemma getProtocolVersion_spec c req :
  let older :=
    McpRequest.Params req !! ParamProtocolVersion = Some (VString "2025-03-26")
    ∨ c_GetHeader c MCPHeaderProtocolVersion = "2025-03-26" in
  (older → getProtocolVersion c req = "2025-03-26")
  ∧ (¬ older → getProtocolVersion c req = "2025-06-18").
Proof.
  intros older. subst older. unfold getProtocolVersion. split.
  - intros [Hparam | Hheader].
    + rewrite Hparam. by rewrite bool_decide_eq_true_2.
    + rewrite (bool_decide_eq_true_2 _ Hheader).
      by destruct (match McpRequest.Params req !! ParamProtocolVersion with
                   | Some (VString v) => bool_decide (v = "2025-03-26")
                   | _ => false
                   end).
  - intros Hnot.
    rewrite bool_decide_eq_false_2 by (intros Hheader; apply Hnot; by right).
    destruct (McpRequest.Params req !! ParamProtocolVersion) as [v |] eqn:Hp;
      [| done].
    destruct v; try done.
    rewrite bool_decide_eq_false_2; [done |].
    intros ->. apply Hnot. by left.
Qed.

(** C7.  An initialize request whose parameters carry an explicit
    protocolVersion string other than "2025-03-26" and "2025-06-18" is
    answered with a protocol-level error of code -32602 and the request
    identifier: the response carries no result (no capabilities, no
    server info), and the response header map is left as it was, so no
    protocol-version header is set. *)
Theorem handleInitialize_unsupported_version c req w version :
  McpRequest.Params req !! ParamProtocolVersion = Some (VString version) →
  version ≠ "2025-03-26" →
  version ≠ "2025-06-18" →
  let w' := (handleInitialize c req w).2 in
  w' = set_written w (written w ++
         [(StatusOK,
           {| McpResponse.Jsonrpc := "2.0";
              McpResponse.ID := McpRequest.ID req;
              McpResponse.Result := None;
              McpResponse.Error :=
                Some {| McpError.Code := -32602;
                        McpError.Message := "Unsupported protocol version";
                        McpError.Data :=
                          VStringMap {[ "supported" := "2025-06-18, 2025-03-26" ]} |} |})])
  ∧ respHeader w' = respHeader w
  ∧ (protocolHeaderOf w = None → protocolHeaderOf w' = None).
Proof.
  intros Hparam H1 H2. unfold handleInitialize. rewrite Hparam.
  rewrite !bool_decide_eq_true_2 by done. simpl.
  split_and!; done.
Qed.

(** C6.  A tools/call request whose name parameter is absent, not a
    string, or the empty string is answered with a protocol-level error
    of code -32602; one whose name is a non-empty string the registry
    does not hold is answered with a protocol-level error of code
    -32601 whose message names the tool.  In both cases the request
    identifier is echoed, the response has no result, and writing that
    response is all the handler does: no tool callback runs, the proxy
    component, its call log and the privilege cache are untouched. *)
Theorem handleToolsCall_bad_name s c req w :
  ((∀ name, McpRequest.Params req !! "name" = Some (VString name) → name = "") →
   handleToolsCall s c req w =
     (tt, set_written w (written w ++
        [(StatusOK,
          {| McpResponse.Jsonrpc := "2.0";
             McpResponse.ID := McpRequest.ID req;
             McpResponse.Result := None;
             McpResponse.Error :=
               Some {| McpError.Code := -32602;
                       McpError.Message := "Tool name is required";
                       McpError.Data := VNil |} |})])))
  ∧ (∀ name,
       McpRequest.Params req !! "name" = Some (VString name) →
       name ≠ "" →
       Get (McpServer.catalog s) name = None →
       handleToolsCall s c req w =
         (tt, set_written w (written w ++
            [(StatusOK,
              {| McpResponse.Jsonrpc := "2.0";
                 McpResponse.ID := McpRequest.ID req;
                 McpResponse.Result := None;
                 McpResponse.Error :=
                   Some {| McpError.Code := -32601;
                           McpError.Message := "Tool not found: " +:+ name;
                           McpError.Data := VNil |} |})]))).
Proof.
  split.
  - intros Hname. unfold handleToolsCall.
    destruct (McpRequest.Params req !! "name") as [[]|] eqn:Hp; simpl;
      try done.
    by rewrite (Hname _ eq_refl).
  - intros name Hname Hne Hget. unfold handleToolsCall. rewrite Hname. simpl.
    rewrite bool_decide_eq_false_2 by done. by rewrite Hget.
Qed.

(** C9.  For any two ping requests against the same server, whoever
    the callers are and whatever the state of the authorization
    switch, the role bindings and the privilege cache, each is
    answered with a success envelope whose result has status "healthy"
    and toolsCount equal to the number of tools in the registry: the
    two responses agree on both, and no privilege filter touches the
    count. *)
Theorem handlePing_status_and_count s c1 req1 w1 c2 req2 w2 :
  let count := VInt (Z.of_nat (size (ToolsCatalog.tools (McpServer.catalog s)))) in
  ∃ result1 result2,
    written (handlePing s c1 req1 w1).2 = written w1 ++
      [(StatusOK,
        {| McpResponse.Jsonrpc := "2.0"; McpResponse.ID := McpRequest.ID req1;
           McpResponse.Result := Some (RMap result1); McpResponse.Error := None |})]
    ∧ written (handlePing s c2 req2 w2).2 = written w2 ++
      [(StatusOK,
        {| McpResponse.Jsonrpc := "2.0"; McpResponse.ID := McpRequest.ID req2;
           McpResponse.Result := Some (RMap result2); McpResponse.Error := None |})]
    ∧ result1 !! "status" = Some (VString "healthy")
    ∧ result2 !! "status" = Some (VString "healthy")
    ∧ result1 !! "toolsCount" = Some count
    ∧ result2 !! "toolsCount" = Some count.
Proof.
  intros count. unfold handlePing, time_Now, returnSuccess, c_JSON, c_Header.
  munfold. simpl. eexists _, _. split_and!; try reflexivity.
Qed.

(** Every name [registerAll] registers is non-empty. *)
Lemma registered_name_nonempty name (tool : Tool.t P) :
  Get NewToolsCatalog name = Some tool → name ≠ "".
Proof. intros Hget ->. vm_compute in Hget. discriminate. Qed.

(** C2.  A tools/call request that names a registered tool (a tool of
    the catalog [NewMcpServer] builds), made by a caller for whom the
    privilege check fails, is answered with a
    success envelope: the request identifier is echoed, there is no
    protocol-level error object, and the result is a tool result with
    isError = true whose one content block is a text containing
    "Permission denied".  The tool does not run: past the check, the
    handler only writes the response. *)
Theorem handleToolsCall_permission_denied c req w toolName tool err w1 :
  McpRequest.Params req !! "name" = Some (VString toolName) →
  Get (McpServer.catalog NewMcpServer) toolName = Some tool →
  checkToolPermission (callerOf c) tool (argumentsOf req) w = (Some err, w1) →
  ∃ text,
    handleToolsCall NewMcpServer c req w =
      (tt, set_written w1 (written w1 ++
         [(StatusOK,
           {| McpResponse.Jsonrpc := "2.0";
              McpResponse.ID := McpRequest.ID req;
              McpResponse.Result :=
                Some (RToolResult
                        {| McpToolResult.Content :=
                             [ {| McpContent.Type_ := "text"; McpContent.Text := text |} ];
                           McpToolResult.IsError := true;
                           McpToolResult.StructuredContent := VNil |});
              McpResponse.Error := None |})]))
    ∧ Contains text "Permission denied".
Proof.
  intros Hname Hget Hcheck.
  exists ("Permission denied: " +:+ Error err). split.
  - unfold handleToolsCall. rewrite Hname. cbv beta iota zeta.
    rewrite bool_decide_eq_false_2 by (by eapply registered_name_nonempty).
    cbn [negb orb]. rewrite Hget. munfold. by rewrite Hcheck.
  - by exists "", (": " +:+ Error err).
Qed.

Lemma register_keyedByName (tc : ToolsCatalog.t P) tool :
  keyedByName tc → keyedByName (register tc tool).
Proof.
  intros Hkeyed name tool'. unfold register. simpl.
  destruct (decide (Tool.Name tool = name)) as [<- | Hne].
  - rewrite lookup_insert_eq. by intros [= <-].
  - rewrite lookup_insert_ne by done. apply Hkeyed.
Qed.

Lemma NewToolsCatalog_keyedByName : keyedByName (NewToolsCatalog (P := P)).
Proof.
  unfold NewToolsCatalog, registerAll.
  assert (Hempty : keyedByName (ToolsCatalog.mk (P := P) ∅)) by (intros ? ?; done).
  revert Hempty. generalize (ToolsCatalog.mk (P := P) ∅).
  induction registeredTools as [| tool tools IH]; intros tc Hkeyed; simpl; [done |].
  apply IH. by apply register_keyedByName.
Qed.

Lemma List_registered s toolDesc :
  toolDesc ∈ List (McpServer.catalog s) →
  ∃ name tool,
    ToolsCatalog.tools (McpServer.catalog s) !! name = Some tool
    ∧ toolDesc = describe tool.
Proof.
  unfold List. intros ([name tool] & -> & Hin)%list_elem_of_fmap.
  rewrite rangeOver_perm in Hin. apply elem_of_map_to_list in Hin. by exists name, tool.
Qed.

(** [List] gives the description of every entry of the registry, once
    per entry, in the order the range over the map visits them. *)
Lemma List_all (tc : ToolsCatalog.t P) :
  List tc ≡ₚ (λ entry, describe entry.2) <$> map_to_list (ToolsCatalog.tools tc).
Proof. unfold List. by rewrite rangeOver_perm. Qed.

Lemma List_complete (tc : ToolsCatalog.t P) name tool :
  ToolsCatalog.tools tc !! name = Some tool → describe tool ∈ List tc.
Proof.
  intros Hreg. rewrite List_all. apply list_elem_of_fmap.
  exists (name, tool). split; [done |]. by apply elem_of_map_to_list.
Qed.

(** C5.  The tools/list response is a success envelope whose listing
    is a sublist of the registry's descriptions, each the description
    of a registered tool.  With authorization enabled and a caller
    holding no cached affirmative privilege, no listed entry carries
    the name of a tool that declares a privilege requirement; in a
    catalog filled by [register], where each tool sits under its own
    name, this says that the description of every tool declaring at
    least one requirement is absent from the listing.  With
    authorization disabled the listing is the full registry: it is
    what [List] returns, which is, up to the order of the range over
    the map, the description of each entry of the registry taken once,
    so the listing has as many entries as the registry and the
    description of every registered tool is in it. *)
Theorem handleToolsList_filtered s c req w :
  let '(_, w') := handleToolsList s c req w in
  ∃ listed,
    written w' = written w ++
      [(StatusOK,
        {| McpResponse.Jsonrpc := "2.0";
           McpResponse.ID := McpRequest.ID req;
           McpResponse.Result :=
             Some (RToolsList {| McpToolsListResult.Tools := listed;
                                 McpToolsListResult.NextCursor := "" |});
           McpResponse.Error := None |})]
    ∧ listed `sublist_of` List (McpServer.catalog s)
    ∧ (∀ toolDesc, toolDesc ∈ listed →
         ∃ name tool,
           ToolsCatalog.tools (McpServer.catalog s) !! name = Some tool
           ∧ toolDesc = describe tool)
    ∧ (AuthorizationEnabled w = true →
       noAffirmativePrivilege w (callerOf c) →
       ∀ toolDesc tool,
         toolDesc ∈ listed →
         Get (McpServer.catalog s) (McpToolDescription.Name toolDesc) = Some tool →
         Tool.RequiredPrivileges tool = [])
    ∧ (AuthorizationEnabled w = true →
       noAffirmativePrivilege w (callerOf c) →
       keyedByName (McpServer.catalog s) →
       ∀ name tool,
         ToolsCatalog.tools (McpServer.catalog s) !! name = Some tool →
         Tool.RequiredPrivileges tool ≠ [] →
         describe tool ∉ listed)
    ∧ (AuthorizationEnabled w = false → listed = List (McpServer.catalog s))
    ∧ (AuthorizationEnabled w = false →
       listed ≡ₚ (λ entry, describe entry.2)
                   <$> map_to_list (ToolsCatalog.tools (McpServer.catalog s))
       ∧ length listed = size (ToolsCatalog.tools (McpServer.catalog s))
       ∧ ∀ name tool,
           ToolsCatalog.tools (McpServer.catalog s) !! name = Some tool →
           describe tool ∈ listed).
Proof.
  unfold handleToolsList, filterToolsByPermission, AuthorizationEnabled_GetAsBool.
  munfold.
  destruct (AuthorizationEnabled w) eqn:Hauth; simpl.
  - pose proof (filterLoop_spec s (callerOf c) (List (McpServer.catalog s)) [] w)
      as Hloop.
    destruct (filterLoop s (callerOf c) (List (McpServer.catalog s)) [] w)
      as [listed w1].
    destruct Hloop as (Hw1 & Hp1 & kept & -> & Hsub & Hnone). simpl.
    exists kept. split_and!; [by rewrite Hw1 | done | | | | done | done].
    + intros d Hd. apply List_registered. by eapply elem_of_sublist.
    + intros _. by apply Hnone.
    + intros Henabled Hno Hkeyed name tool Hreg Hrequires Hlisted.
      apply Hrequires. eapply (Hnone Hauth Hno); [exact Hlisted |].
      unfold Get. simpl. by rewrite (Hkeyed _ _ Hreg).
  - exists (List (McpServer.catalog s)).
    split_and!; [done | done | apply List_registered | done | done | done |].
    intros _. split_and!.
    + apply List_all.
    + by rewrite List_all, length_fmap, length_map_to_list.
    + apply List_complete.
Qed.
End Dispatcher.

Section CollectionCreate.
Context {P : Type} {proxyComponent : ProxyComponent P} {imports : Imports}.
Implicit Types (w : World P) (args : gmap string Value).

Lemma Require_present args :
  is_Some (args !! ParamCollectionNameKey) →
  is_Some (args !! ParamDimensionKey) →
  Require_ args [ParamCollectionNameKey; ParamDimensionKey] = None.
Proof. intros [? Hname] [? Hdim]. simpl. by rewrite Hname, Hdim. Qed.

Lemma GetInt_number args key (n : Z) (f : float) value defaultValue :
  args !! key = Some value →
  value ∈ [VInt n; VInt64 n; VFloat64 f] →
  float64_to_int f = n →
  GetInt args key defaultValue = n.
Proof.
  intros Hkey Hvalue Hf. unfold GetInt. rewrite Hkey.
  repeat (apply elem_of_cons in Hvalue as [-> | Hvalue]; [done |]).
  by apply elem_of_nil in Hvalue.
Qed.

(** Past validation, marshalling and a create-collection call that
    comes back OK, [createCollection] calls index creation and returns
    its fixed success result, whatever index creation returned. *)
Lemma createCollection_created args w schemaBytes resp p1 indexResult p2 :
  let dbName := GetString args ParamDatabaseKey util_DefaultDBName in
  let collectionName := GetString args ParamCollectionNameKey "" in
  let dimension := GetInt args ParamDimensionKey 0 in
  let metricType := GetString args ParamMetricTypeKey DefaultMetricType in
  let req :=
    {| CreateCollectionRequest.DbName := dbName;
       CreateCollectionRequest.CollectionName := collectionName;
       CreateCollectionRequest.Schema := schemaBytes |} in
  let indexReq := indexRequestFor dbName collectionName metricType in
  Require_ args [ParamCollectionNameKey; ParamDimensionKey] = None →
  0 < dimension →
  proto_Marshal (collectionSchemaFor collectionName dimension) = (schemaBytes, None) →
  CreateCollection (proxy w) req = ((resp, None), p1) →
  GetCode resp = 0 →
  CreateIndex p1 indexReq = (indexResult, p2) →
  createCollection args w =
    (Ok (NewToolResultWithData
           (MsgCollectionCreateSuccess collectionName dimension)
           (VObject (createdData collectionName dbName dimension metricType))),
     set_proxy w p2
       (proxyCalls w ++ [CallCreateCollection req; CallCreateIndex indexReq])).
Proof.
  intros dbName collectionName dimension metricType req indexReq
         Hreq Hdim Hmarshal Hcreate Hcode Hindex.
  unfold createCollection. rewrite Hreq.
  fold dbName collectionName dimension metricType.
  destruct (Z.leb_spec dimension 0) as [Hle | _]; [lia |].
  rewrite Hmarshal. fold req. munfold.
  unfold proxy_CreateCollection. rewrite Hcreate. rewrite Hcode. simpl.
  fold indexReq. unfold proxy_CreateIndex. simpl. rewrite Hindex.
  unfold set_proxy. simpl. by rewrite <- app_assoc.
Qed.

(** C8.  [createCollection] called with a collection name, dimension
    128 (as an int, an int64 or the float64 a JSON number decodes to)
    and no metric type, when marshalling the schema succeeds and the
    proxy component's create-collection call returns no error and the
    OK code, returns a result that is not an error and whose structured
    payload maps dimension to 128, metric_type to "L2" and status to
    "created".  Called with a collection name and dimension 0, it
    returns an error whose text contains "dimension must be positive,
    got 0", and the world is as before: no call reached the proxy
    component. *)
Theorem createCollection_example args w :
  (∀ name dimension schemaBytes resp p1,
     args !! "collection_name" = Some (VString name) →
     args !! "dimension" = Some dimension →
     dimension ∈ [VInt 128; VInt64 128; VFloat64 128%float] →
     args !! "metric_type" = None →
     proto_Marshal (collectionSchemaFor name 128) = (schemaBytes, None) →
     CreateCollection (proxy w)
       {| CreateCollectionRequest.DbName :=
            GetString args "database" util_DefaultDBName;
          CreateCollectionRequest.CollectionName := name;
          CreateCollectionRequest.Schema := schemaBytes |} = ((resp, None), p1) →
     GetCode resp = 0 →
     ∃ text data w',
       createCollection args w =
         (Ok {| ToolResult.Content :=
                  [ {| McpContent.Type_ := "text"; McpContent.Text := text |} ];
                ToolResult.IsError := false;
                ToolResult.StructuredContent := VObject data |}, w')
       ∧ data !! "dimension" = Some (VInt 128)
       ∧ data !! "metric_type" = Some (VString "L2")
       ∧ data !! "status" = Some (VString "created"))
  ∧ (∀ dimension,
       is_Some (args !! "collection_name") →
       args !! "dimension" = Some dimension →
       dimension ∈ [VInt 0; VInt64 0; VFloat64 0%float] →
       ∃ err,
         createCollection args w = (Err err, w)
         ∧ Contains (Error err) "dimension must be positive, got 0").
Proof.
  split.
  - intros name dimension schemaBytes resp p1 Hname Hdim Hvalue Hmetric
           Hmarshal Hcreate Hcode.
    assert (Hint : GetInt args ParamDimensionKey 0 = 128)
      by (by eapply GetInt_number).
    assert (Hcoll : GetString args ParamCollectionNameKey "" = name).
    { unfold GetString, ParamCollectionNameKey. rewrite Hname. by case_decide. }
    assert (Hmt : GetString args ParamMetricTypeKey DefaultMetricType = "L2").
    { unfold GetString, ParamMetricTypeKey. by rewrite Hmetric. }
    destruct (CreateIndex p1
                (indexRequestFor (GetString args ParamDatabaseKey util_DefaultDBName)
                   name "L2")) as [indexResult p2] eqn:Hindex.
    pose proof (createCollection_created args w schemaBytes resp p1 indexResult p2)
      as Hcreated.
    cbv zeta in Hcreated. rewrite Hint, Hcoll, Hmt in Hcreated.
    rewrite Hcreated; [| by apply Require_present | done | done | done | done | done].
    eexists _, _, _. split; [reflexivity |]. by split_and!.
  - intros dimension Hname Hdim Hvalue.
    assert (Hint : GetInt args ParamDimensionKey 0 = 0)
      by (by eapply GetInt_number).
    exists (errors_New (ErrDimensionPositive 0)). split.
    + unfold createCollection.
      rewrite Require_present by (by rewrite ?Hdim).
      by rewrite Hint.
    + by exists "", "".
Qed.

(** C10.  Once the create-collection call has succeeded,
    [createCollection] issues the index-creation call (it is the next
    entry of the proxy component's call log) and looks at neither the
    response nor the error it returns: for every outcome [indexResult]
    of that call, failures included, the tool returns the same result,
    which is not an error and whose payload has status "created". *)
Theorem createCollection_ignores_index_outcome
    args w schemaBytes resp p1 indexResult p2 :
  let dbName := GetString args "database" util_DefaultDBName in
  let collectionName := GetString args "collection_name" "" in
  let dimension := GetInt args "dimension" 0 in
  let metricType := GetString args "metric_type" "L2" in
  let req :=
    {| CreateCollectionRequest.DbName := dbName;
       CreateCollectionRequest.CollectionName := collectionName;
       CreateCollectionRequest.Schema := schemaBytes |} in
  let indexReq := indexRequestFor dbName collectionName metricType in
  let result :=
    NewToolResultWithData
      (MsgCollectionCreateSuccess collectionName dimension)
      (VObject (createdData collectionName dbName dimension metricType)) in
  Require_ args ["collection_name"; "dimension"] = None →
  0 < dimension →
  proto_Marshal (collectionSchemaFor collectionName dimension) = (schemaBytes, None) →
  CreateCollection (proxy w) req = ((resp, None), p1) →
  GetCode resp = 0 →
  CreateIndex p1 indexReq = (indexResult, p2) →
  createCollection args w =
    (Ok result,
     set_proxy w p2
       (proxyCalls w ++ [CallCreateCollection req; CallCreateIndex indexReq]))
  ∧ ToolResult.IsError result = false
  ∧ createdData collectionName dbName dimension metricType !! "status"
    = Some (VString "created").
Proof.
  intros dbName collectionName dimension metricType req indexReq result
         Hreq Hdim Hmarshal Hcreate Hcode Hindex.
  split_and!; [| done | done].
  by eapply createCollection_created.
Qed.
End CollectionCreate.

Section VersionHeader.
Context {P : Type} {proxyComponent : ProxyComponent P} {imports : Imports}
        {delegated : DelegatedTools P} {range : MapRange}.
Implicit Types (w : World P) (s : McpServer.t P) (c : Context.t) (req : McpRequest.t).

(** The handlers that answer with a result and then set the
    protocol-version header to the negotiated version. *)
Lemma handlers_set_version_header s c req w :
  let version := Some (getProtocolVersion c req) in
  protocolHeaderOf (handleToolsList s c req w).2 = version
  ∧ protocolHeaderOf (handlePing s c req w).2 = version
  ∧ protocolHeaderOf (handleNotificationsInitialized c req w).2 = version
  ∧ protocolHeaderOf (handlePromptsList c req w).2 = version
  ∧ protocolHeaderOf (handleResourcesList c req w).2 = version
  ∧ protocolHeaderOf (handleResourceTemplatesList c req w).2 = version.
Proof.
  intros version. split_and!; try (by apply lookup_insert_eq).
  unfold handleToolsList. munfold.
  destruct (filterToolsByPermission s (callerOf c) (List (McpServer.catalog s)) w).
  by apply lookup_insert_eq.
Qed.

Lemma handleInitialize_sets_version_header c req w :
  (∀ version, McpRequest.Params req !! ParamProtocolVersion = Some (VString version) →
              version = "2025-03-26" ∨ version = "2025-06-18") →
  protocolHeaderOf (handleInitialize c req w).2 = Some (getProtocolVersion c req).
Proof.
  intros Hsupported. unfold handleInitialize.
  destruct (McpRequest.Params req !! ParamProtocolVersion) as [v |] eqn:Hp;
    [| by apply lookup_insert_eq].
  destruct v; try (by apply lookup_insert_eq).
  destruct (Hsupported _ eq_refl) as [-> | ->]; by apply lookup_insert_eq.
Qed.

(** A tools/call whose tool ran and returned a result sets the header. *)
Lemma handleToolsCall_result_sets_version_header s c req w toolName tool w1 result w2 :
  McpRequest.Params req !! "name" = Some (VString toolName) →
  toolName ≠ "" →
  Get (McpServer.catalog s) toolName = Some tool →
  checkToolPermission (callerOf c) tool (argumentsOf req) w = (None, w1) →
  Tool.Execute tool (argumentsOf req) w1 = (Ok result, w2) →
  protocolHeaderOf (handleToolsCall s c req w).2 = Some (getProtocolVersion c req).
Proof.
  intros Hname Hne Hget Hcheck Hexec.
  unfold handleToolsCall. rewrite Hname. cbv beta iota zeta.
  rewrite bool_decide_eq_false_2 by done. cbn [negb orb].
  rewrite Hget. munfold. rewrite Hcheck, Hexec. by apply lookup_insert_eq.
Qed.

(** A tools/call that ends in an error-flagged tool result, because
    the privilege check failed or the tool returned an error, returns
    before the header is set: the header map is the one the check or
    the tool left. *)
Lemma handleToolsCall_error_result_skips_header s c req w toolName tool :
  McpRequest.Params req !! "name" = Some (VString toolName) →
  toolName ≠ "" →
  Get (McpServer.catalog s) toolName = Some tool →
  (∀ err w1,
     checkToolPermission (callerOf c) tool (argumentsOf req) w = (Some err, w1) →
     respHeader (handleToolsCall s c req w).2 = respHeader w)
  ∧ (∀ w1 err w2,
       checkToolPermission (callerOf c) tool (argumentsOf req) w = (None, w1) →
       Tool.Execute tool (argumentsOf req) w1 = (Err err, w2) →
       respHeader (handleToolsCall s c req w).2 = respHeader w2).
Proof.
  intros Hname Hne Hget. unfold handleToolsCall. rewrite Hname. cbv beta iota zeta.
  rewrite bool_decide_eq_false_2 by done. cbn [negb orb].
  rewrite Hget. munfold. split.
  - intros err w1 Hcheck. rewrite Hcheck. simpl.
    pose proof (checkToolPermission_world (callerOf c) tool (argumentsOf req) w) as Hw.
    rewrite Hcheck in Hw. destruct Hw as (-> & _). done.
  - intros w1 err w2 Hcheck Hexec. by rewrite Hcheck, Hexec.
Qed.
End VersionHeader.

(** * Examples on the concrete deployment *)

Section Examples.
Local Existing Instances demoImports demoProxy demoTools demoRange.

(** C3.  A request whose explicit protocolVersion parameter is the
    supported "2025-06-18" and whose header says "2025-03-26": the
    header's value is selected, not the parameter's. *)
Lemma getProtocolVersion_header_beats_latest_param :
  getProtocolVersion
    (demoContext "" "2025-03-26")
    (demoRequest "initialize" {[ "protocolVersion" := VString "2025-06-18" ]})
  = "2025-03-26".
Proof. vm_compute. reflexivity. Qed.

(** The same request sent to initialize: the client that asked for
    "2025-06-18" is told "2025-03-26". *)
Lemma handleInitialize_answers_header_version :
  option_map McpResponse.Result
    (responseOf
       (handleInitialize
          (demoContext "" "2025-03-26")
          (demoRequest "initialize" {[ "protocolVersion" := VString "2025-06-18" ]})
          demoWorld).2)
  = Some (Some (RInitialize
       {| McpInitializeResult.ProtocolVersion := "2025-03-26";
          McpInitializeResult.Capabilities :=
            {| McpCapabilities.Tools :=
                 Some {| ToolsCapability.ListChanged := false |};
               McpCapabilities.Resources :=
                 Some {| ResourcesCapability.Subscribe := false;
                         ResourcesCapability.ListChanged := false |};
               McpCapabilities.Prompts :=
                 Some {| PromptsCapability.ListChanged := false |};
               McpCapabilities.Logging := Some LoggingCapability.mk;
               McpCapabilities.Experimental :=
                 Some {| ExperimentalCapability.StructuredOutput := true |} |};
          McpInitializeResult.ServerInfo :=
            {| McpServerInfo.Name := "milvus-mcp-server";
               McpServerInfo.Version := "2025-03-26";
               McpServerInfo.Title := "Milvus Vector Database MCP Server" |} |})).
Proof. vm_compute. reflexivity. Qed.

(** C4.  bob, who holds no role, calls collection.list with the
    header "2025-03-26" on a fresh context: the response is a success
    envelope carrying an error-flagged tool result, and the response
    has no protocol-version header. *)
Lemma handleToolsCall_denied_without_version_header :
  let w' :=
    (handleToolsCall demoServer (demoContext "bob" "2025-03-26")
       (demoRequest "tools/call" {[ "name" := VString "collection.list" ]})
       demoWorld).2 in
  responseOf w' =
    Some {| McpResponse.Jsonrpc := "2.0";
            McpResponse.ID := VString "req-1";
            McpResponse.Result :=
              Some (RToolResult
                {| McpToolResult.Content :=
                     textContent
                       "Permission denied: permission denied: ShowCollections privilege required on Database:default";
                   McpToolResult.IsError := true;
                   McpToolResult.StructuredContent := VNil |});
            McpResponse.Error := None |}
  ∧ protocolHeaderOf w' = None.
Proof. vm_compute. split; reflexivity. Qed.

(** The sibling path: alice, who is granted the privilege, makes the
    same call and the response carries the negotiated version. *)
Lemma handleToolsCall_granted_with_version_header :
  let w' :=
    (handleToolsCall demoServer (demoContext "alice" "2025-03-26")
       (demoRequest "tools/call" {[ "name" := VString "collection.list" ]})
       demoWorld).2 in
  responseOf w' =
    Some {| McpResponse.Jsonrpc := "2.0";
            McpResponse.ID := VString "req-1";
            McpResponse.Result :=
              Some (RToolResult
                {| McpToolResult.Content := textContent "listed";
                   McpToolResult.IsError := false;
                   McpToolResult.StructuredContent := VNil |});
            McpResponse.Error := None |}
  ∧ protocolHeaderOf w' = Some "2025-03-26".
Proof. vm_compute. split; reflexivity. Qed.


(** A miss followed by a grant: carol's first role guest has no entry
    for the requirement of collection.list, her second role admin holds
    the affirmative one.  The check succeeds, the miss on guest is now a
    negative entry, and the role public, which comes after the granting
    role, was not looked up. *)
Lemma checkToolPermission_miss_then_grant :
  let key roleName := (roleName, "Database-default.default", "ShowCollections") in
  let '(err, w') := checkToolPermission "carol" demoListTool ∅ demoTeamWorld in
  priCache demoTeamWorld !! key "guest" = None
  ∧ err = None
  ∧ priCache w' !! key "guest" = Some false
  ∧ priCache w' !! key "admin" = Some true
  ∧ priCache w' !! key "public" = None.
Proof. vm_compute. split_and!; reflexivity. Qed.

(** C2 at work: bob is denied collection.list. *)
Lemma handleToolsCall_permission_denied_witness :
  ∃ text,
    responseOf
      (handleToolsCall demoServer (demoContext "bob" "")
         (demoRequest "tools/call" {[ "name" := VString "collection.list" ]})
         demoWorld).2
    = Some {| McpResponse.Jsonrpc := "2.0";
              McpResponse.ID := VString "req-1";
              McpResponse.Result :=
                Some (RToolResult
                        {| McpToolResult.Content :=
                             [ {| McpContent.Type_ := "text"; McpContent.Text := text |} ];
                           McpToolResult.IsError := true;
                           McpToolResult.StructuredContent := VNil |});
              McpResponse.Error := None |}
    ∧ Contains text "Permission denied".
Proof.
  set (c := demoContext "bob" "").
  set (req := demoRequest "tools/call" {[ "name" := VString "collection.list" ]}).
  destruct (handleToolsCall_permission_denied c req demoWorld
              "collection.list" demoListTool
              (permissionDenied "ShowCollections" "Database" "default")
              (checkToolPermission "bob" demoListTool ∅ demoWorld).2)
    as (text & Hcall & Htext).
  - reflexivity.
  - vm_compute. reflexivity.
  - vm_compute. reflexivity.
  - exists text. split; [| exact Htext].
    change demoServer with (@NewMcpServer nat demoProxy demoImports demoTools).
    rewrite Hcall. reflexivity.
Defined.

(** C5 at work: bob holds no affirmative privilege, so collection.list,
    which declares a requirement, is not listed for him. *)
Lemma handleToolsList_filtered_witness :
  AuthorizationEnabled demoWorld = true
  ∧ noAffirmativePrivilege demoWorld "bob"
  ∧ ∃ listed,
      written (handleToolsList demoServer (demoContext "bob" "")
                 (demoRequest "tools/list" ∅) demoWorld).2
      = [(StatusOK,
          {| McpResponse.Jsonrpc := "2.0";
             McpResponse.ID := VString "req-1";
             McpResponse.Result :=
               Some (RToolsList {| McpToolsListResult.Tools := listed;
                                   McpToolsListResult.NextCursor := "" |});
             McpResponse.Error := None |})]
      ∧ describe demoListTool ∉ listed.
Proof.
  assert (Hnone : noAffirmativePrivilege demoWorld "bob").
  { intros roleName object objectPrivilege Hin.
    simpl in Hin. apply list_elem_of_singleton in Hin as ->.
    unfold demoWorld. simpl. by rewrite lookup_singleton_ne. }
  split_and!; [reflexivity | exact Hnone |].
  pose proof (handleToolsList_filtered demoServer (demoContext "bob" "")
                (demoRequest "tools/list" ∅) demoWorld) as Hlist.
  destruct (handleToolsList demoServer (demoContext "bob" "")
              (demoRequest "tools/list" ∅) demoWorld) as [[] w'].
  destruct Hlist as (listed & Hwritten & _ & _ & _ & Hexcluded & _).
  exists listed. split; [exact Hwritten |].
  apply (Hexcluded eq_refl Hnone NewToolsCatalog_keyedByName "collection.list").
  - vm_compute. reflexivity.
  - discriminate.
Defined.

(** C6 at work: a call without a name, and a call naming no tool. *)
Lemma handleToolsCall_bad_name_witness :
  (option_map McpError.Code
     (responseOf (handleToolsCall demoServer (demoContext "bob" "")
                    (demoRequest "tools/call" ∅) demoWorld).2
      ≫= McpResponse.Error) = Some (-32602))
  ∧ (option_map McpError.Code
       (responseOf (handleToolsCall demoServer (demoContext "bob" "")
                      (demoRequest "tools/call" {[ "name" := VString "nope" ]})
                      demoWorld).2
        ≫= McpResponse.Error) = Some (-32601)).
Proof.
  split.
  - destruct (handleToolsCall_bad_name demoServer (demoContext "bob" "")
                (demoRequest "tools/call" ∅) demoWorld) as [Hmissing _].
    rewrite Hmissing; [reflexivity |]. intros name Hname. discriminate Hname.
  - destruct (handleToolsCall_bad_name demoServer (demoContext "bob" "")
                (demoRequest "tools/call" {[ "name" := VString "nope" ]})
                demoWorld) as [_ Hunknown].
    rewrite (Hunknown "nope"); [reflexivity | reflexivity | discriminate |].
    vm_compute. reflexivity.
Defined.

(** C7 at work: initialize with a version of another century. *)
Lemma handleInitialize_unsupported_version_witness :
  let w' :=
    (handleInitialize (demoContext "" "2025-03-26")
       (demoRequest "initialize" {[ "protocolVersion" := VString "1999-01-01" ]})
       demoWorld).2 in
  respHeader w' = ∅ ∧ protocolHeaderOf w' = None.
Proof.
  destruct (handleInitialize_unsupported_version (demoContext "" "2025-03-26")
              (demoRequest "initialize" {[ "protocolVersion" := VString "1999-01-01" ]})
              demoWorld "1999-01-01") as (_ & Hheader & Hversion).
  - reflexivity.
  - discriminate.
  - discriminate.
  - split; [exact Hheader | by apply Hversion].
Defined.

(** C8 at work, on a proxy component that creates every collection:
    dimension 128 as JSON gives it, then dimension 0. *)
Lemma createCollection_example_witness :
  (∃ text data w',
      createCollection
        (<["collection_name" := VString "docs"]>
           {[ "dimension" := VFloat64 128%float ]}) demoWorld
      = (Ok {| ToolResult.Content :=
                 [ {| McpContent.Type_ := "text"; McpContent.Text := text |} ];
               ToolResult.IsError := false;
               ToolResult.StructuredContent := VObject data |}, w')
      ∧ data !! "dimension" = Some (VInt 128)
      ∧ data !! "metric_type" = Some (VString "L2")
      ∧ data !! "status" = Some (VString "created"))
  ∧ (∃ err,
       createCollection
         (<["collection_name" := VString "docs"]>
            {[ "dimension" := VFloat64 0%float ]}) demoWorld
       = (Err err, demoWorld)
       ∧ Contains (Error err) "dimension must be positive, got 0").
Proof.
  split.
  - destruct (createCollection_example
                (<["collection_name" := VString "docs"]>
                   {[ "dimension" := VFloat64 128%float ]}) demoWorld)
      as [Hcreated _].
    apply (Hcreated "docs" (VFloat64 128%float) [] 
             (Some {| Status.Code := 0; Status.Reason := "" |}) 1%nat);
      try reflexivity.
    apply list_elem_of_In. vm_compute. tauto.
  - destruct (createCollection_example
                (<["collection_name" := VString "docs"]>
                   {[ "dimension" := VFloat64 0%float ]}) demoWorld)
      as [_ Hzero].
    apply (Hzero (VFloat64 0%float)).
    + by eexists.
    + reflexivity.
    + apply list_elem_of_In. vm_compute. tauto.
Defined.

(** C10 at work, on a proxy component whose index creation fails: the
    tool still reports the collection as created. *)
Lemma createCollection_ignores_index_outcome_witness :
  let args : gmap string Value :=
    <["collection_name" := VString "docs"]> {[ "dimension" := VInt 4 ]} in
  CreateIndex 1%nat (indexRequestFor "default" "docs" "L2")
    = ((None, Some (errors_New "index node unavailable")), 2%nat)
  ∧ ∃ result w',
      createCollection args demoWorld = (Ok result, w')
      ∧ ToolResult.IsError result = false
      ∧ proxyCalls w' =
          [CallCreateCollection
             {| CreateCollectionRequest.DbName := "default";
                CreateCollectionRequest.CollectionName := "docs";
                CreateCollectionRequest.Schema := [] |};
           CallCreateIndex (indexRequestFor "default" "docs" "L2")].
Proof.
  intros args. split; [reflexivity |].
  destruct (createCollection_ignores_index_outcome args demoWorld []
              (Some {| Status.Code := 0; Status.Reason := "" |}) 1%nat
              (None, Some (errors_New "index node unavailable")) 2%nat)
    as (Hcall & Hflag & _); try reflexivity.
  eexists _, _. split; [exact Hcall |]. split; [exact Hflag | reflexivity].
Defined.
End Examples.

(** * Further properties *)

Section DispatcherEnvelope.
Context {P : Type} {proxyComponent : ProxyComponent P} {imports : Imports}
        {delegated : DelegatedTools P} {range : MapRange}.
Implicit Types (w : World P) (s : McpServer.t P) (c : Context.t) (req : McpRequest.t).

Lemma filterToolsByPermission_frame s username tools w :
  let '(_, w') := filterToolsByPermission s username tools w in
  w' = set_priCache w (priCache w')
  ∧ placeholdersAdded (priCache w) (priCache w').
Proof.
  unfold filterToolsByPermission, AuthorizationEnabled_GetAsBool. munfold.
  destruct (AuthorizationEnabled w); simpl.
  - pose proof (filterLoop_spec s username tools [] w) as Hloop.
    destruct (filterLoop s username tools [] w) as [out w'].
    by destruct Hloop as (? & ? & _).
  - split; [by rewrite set_priCache_id | apply placeholdersAdded_refl].
Qed.

(** X1.  A decoded request whose method is none of the eight the
    dispatcher knows is answered with a protocol-level error of code
    -32601 whose message names the method; the identifier is echoed and
    nothing but the response is written. *)
Theorem handleMcpRequest_unknown_method s c w req :
  ShouldBindJSON (Context.Body c) = (req, None) →
  McpRequest.Method req ∉
    ["initialize"; "tools/list"; "tools/call"; "prompts/list"; "resources/list";
     "resources/templates/list"; "ping"; "notifications/initialized"] →
  handleMcpRequest s c w =
    (tt, set_written w (written w ++
           [(StatusOK,
             errorEnvelope (McpRequest.ID req) (-32601)
               ("Method not found: " +:+ McpRequest.Method req) VNil)])).
Proof.
  intros Hbind Hmethod. unfold handleMcpRequest. rewrite Hbind.
  repeat (rewrite bool_decide_eq_false_2;
          [| intros Heq; apply Hmethod; rewrite Heq;
             repeat first [by apply list_elem_of_here | apply list_elem_of_further]]).
  reflexivity.
Qed.

(** X2.  A body that does not decode is answered with a protocol-level
    error of code -32700 and a null identifier, the decoder's message as
    its data; no handler runs and nothing else changes. *)
Theorem handleMcpRequest_parse_error s c w req err :
  ShouldBindJSON (Context.Body c) = (req, Some err) →
  handleMcpRequest s c w =
    (tt, set_written w (written w ++
           [(StatusOK,
             errorEnvelope VNil (-32700) "Parse error" (VString (Error err)))])).
Proof. intros Hbind. unfold handleMcpRequest. by rewrite Hbind. Qed.

(** X3.  One request, one response.  On a server whose tool callbacks
    write nothing onto the response, the dispatcher writes exactly one
    body for every request, with HTTP status 200 and jsonrpc "2.0";
    the body carries a result or an error object and never both or
    neither; its identifier is the request's, or null when the body did
    not decode. *)
Theorem handleMcpRequest_one_response s c w :
  (∀ name tool, Get (McpServer.catalog s) name = Some tool →
                leavesResponse (Tool.Execute tool)) →
  ∃ response,
    written (handleMcpRequest s c w).2 = written w ++ [(StatusOK, response)]
    ∧ McpResponse.Jsonrpc response = "2.0"
    ∧ (McpResponse.Result response = None ↔ is_Some (McpResponse.Error response))
    ∧ McpResponse.ID response =
        match (ShouldBindJSON (Context.Body c)).2 with
        | Some _ => VNil
        | None => McpRequest.ID (ShouldBindJSON (Context.Body c)).1
        end.
Proof.
  intros Hquiet. unfold handleMcpRequest.
  destruct (ShouldBindJSON (Context.Body c)) as [req [err |]]; simpl.
  { eexists. split; [reflexivity |]. split_and!; [done | | done].
    split; [by eexists | done]. }
  assert (Hsuccess : ∀ result, 
            McpResponse.Result (successEnvelope (McpRequest.ID req) result) = None
            ↔ is_Some (McpResponse.Error (successEnvelope (McpRequest.ID req) result))).
  { intros result. simpl. split; [discriminate | by intros [? ?]]. }
  assert (Herror : ∀ code message data,
            McpResponse.Result (errorEnvelope (McpRequest.ID req) code message data) = None
            ↔ is_Some (McpResponse.Error
                         (errorEnvelope (McpRequest.ID req) code message data))).
  { intros. simpl. split; [by eexists | done]. }
  repeat case_bool_decide.
  - (* initialize *)
    unfold handleInitialize.
    destruct (match McpRequest.Params req !! ParamProtocolVersion with
              | Some (VString v) =>
                  bool_decide (v ≠ "2025-03-26") && bool_decide (v ≠ "2025-06-18")
              | _ => false
              end).
    + eexists. split; [reflexivity |]. split_and!; [done | apply Herror | done].
    + eexists. split; [reflexivity |]. split_and!; [done | apply Hsuccess | done].
  - (* tools/list *)
    unfold handleToolsList. munfold.
    pose proof (filterToolsByPermission_frame s (callerOf c)
                  (List (McpServer.catalog s)) w) as Hframe.
    destruct (filterToolsByPermission s (callerOf c) (List (McpServer.catalog s)) w)
      as [listed w1].
    destruct Hframe as [Hw1 _]. simpl. rewrite Hw1. simpl.
    eexists. split; [reflexivity |]. split_and!; [done | apply Hsuccess | done].
  - (* tools/call *)
    unfold handleToolsCall.
    destruct (match McpRequest.Params req !! "name" with
              | Some (VString v) => (v, true)
              | _ => ("", false)
              end) as [toolName ok].
    destruct (negb ok || bool_decide (toolName = "")).
    { eexists. split; [reflexivity |]. split_and!; [done | apply Herror | done]. }
    destruct (Get (McpServer.catalog s) toolName) as [tool |] eqn:Hget.
    2: { eexists. split; [reflexivity |]. split_and!; [done | apply Herror | done]. }
    munfold.
    pose proof (checkToolPermission_world (callerOf c) tool (argumentsOf req) w) as Hcheck.
    destruct (checkToolPermission (callerOf c) tool (argumentsOf req) w) as [denied w1].
    destruct Hcheck as (Hw1 & _).
    assert (Hwritten1 : written w1 = written w) by (by rewrite Hw1).
    destruct denied as [e |].
    { simpl. rewrite Hwritten1.
      eexists. split; [reflexivity |]. split_and!; [done | apply Hsuccess | done]. }
    destruct (Hquiet _ _ Hget (argumentsOf req) w1) as [Hwritten2 _].
    destruct (Tool.Execute tool (argumentsOf req) w1) as [[result | e] w2];
      simpl in *; rewrite Hwritten2, Hwritten1;
      eexists; (split; [reflexivity |]); split_and!; done || apply Hsuccess.
  - eexists. split; [reflexivity |]. split_and!; [done | apply Hsuccess | done].
  - eexists. split; [reflexivity |]. split_and!; [done | apply Hsuccess | done].
  - eexists. split; [reflexivity |]. split_and!; [done | apply Hsuccess | done].
  - unfold handlePing, time_Now. munfold. simpl.
    eexists. split; [reflexivity |]. split_and!; [done | apply Hsuccess | done].
  - eexists. split; [reflexivity |]. split_and!; [done | apply Hsuccess | done].
  - eexists. split; [reflexivity |]. split_and!; [done | apply Herror | done].
Qed.
End DispatcherEnvelope.

Section PrivilegeStability.
Context {P : Type} {imports : Imports}.
Implicit Types (w : World P) (s : McpServer.t P).

Lemma placeholdersAdded_kept (cache cache' : gmap (string * string * string) bool) key v :
  placeholdersAdded cache cache' → cache !! key = Some v → cache' !! key = Some v.
Proof. intros H Hk. destruct (H key) as [E | [N F]]; congruence. Qed.

Lemma afterPlaceholders_refl w : afterPlaceholders w w.
Proof. split_and!; [done | done | apply placeholdersAdded_refl]. Qed.

Lemma afterPlaceholders_trans w1 w2 w3 :
  afterPlaceholders w1 w2 → afterPlaceholders w2 w3 → afterPlaceholders w1 w3.
Proof.
  intros (Ha & Hr & Hp) (Ha' & Hr' & Hp').
  split_and!; [congruence | congruence | by eapply placeholdersAdded_trans].
Qed.

Lemma afterPlaceholders_set_priCache w w' :
  w' = set_priCache w (priCache w') →
  placeholdersAdded (priCache w) (priCache w') →
  afterPlaceholders w w'.
Proof. intros -> Hp. by split_and!. Qed.

(** A scan repeated in a later world finds every key it visits cached:
    same answer, nothing written. *)
Lemma scanRoles_stable roleNames object objectPrivilege w :
  let '(hasPermission, wa) := scanRoles roleNames object objectPrivilege w in
  ∀ w1, afterPlaceholders wa w1 →
        scanRoles roleNames object objectPrivilege w1 = (hasPermission, w1).
Proof.
  revert w. induction roleNames as [| roleName roleNames IH]; intros w; simpl.
  - munfold. done.
  - munfold. unfold GetPrivilegeCache at 1.
    destruct (priCache w !! (roleName, object, objectPrivilege)) as [[|]|] eqn:Hk; simpl.
    + intros w1 (_ & _ & Hp). unfold GetPrivilegeCache.
      by rewrite (placeholdersAdded_kept _ _ _ _ Hp Hk).
    + pose proof (scanRoles_spec roleNames object objectPrivilege w) as Hspec.
      specialize (IH w).
      destruct (scanRoles roleNames object objectPrivilege w) as [b wa].
      destruct Hspec as (_ & Hpa & _).
      intros w1 Hlater. unfold GetPrivilegeCache at 1.
      destruct Hlater as (Hauth & Hroles & Hp).
      rewrite (placeholdersAdded_kept _ _ _ _ Hp
                 (placeholdersAdded_kept _ _ _ _ Hpa Hk)). simpl.
      by apply IH.
    + unfold SetPrivilegeCache.
      set (w0 := set_priCache w _).
      pose proof (scanRoles_spec roleNames object objectPrivilege w0) as Hspec.
      specialize (IH w0).
      destruct (scanRoles roleNames object objectPrivilege w0) as [b wa].
      destruct Hspec as (_ & Hpa & _).
      intros w1 Hlater. unfold GetPrivilegeCache at 1.
      destruct Hlater as (Hauth & Hroles & Hp).
      assert (Hk0 : priCache w0 !! (roleName, object, objectPrivilege) = Some false)
        by (subst w0; simpl; by rewrite lookup_insert_eq).
      rewrite (placeholdersAdded_kept _ _ _ _ Hp
                 (placeholdersAdded_kept _ _ _ _ Hpa Hk0)). simpl.
      by apply IH.
Qed.

Lemma checkPrivileges_stable privileges roleNames dbName args w :
  let '(err, wa) := checkPrivileges privileges roleNames dbName args w in
  ∀ w1, afterPlaceholders wa w1 →
        checkPrivileges privileges roleNames dbName args w1 = (err, w1).
Proof.
  revert w. induction privileges as [| privilege privileges IH]; intros w; simpl.
  - munfold. done.
  - munfold.
    pose proof (scanRoles_stable roleNames (resourceFor args dbName privilege)
                  (PrivilegeRequirement.ObjectPrivilege privilege) w) as Hscan.
    unfold resourceFor in Hscan.
    destruct (scanRoles roleNames _ _ w) as [hasPermission ws].
    destruct hasPermission; simpl.
    + pose proof (checkPrivileges_spec privileges roleNames dbName args ws) as Hspec.
      specialize (IH ws).
      destruct (checkPrivileges privileges roleNames dbName args ws) as [err wa].
      destruct Hspec as (Hwa & Hpa & _).
      intros w1 Hlater.
      rewrite (Hscan w1); [by apply IH |].
      eapply afterPlaceholders_trans; [| exact Hlater].
      by apply afterPlaceholders_set_priCache.
    + intros w1 Hlater. by rewrite (Hscan w1).
Qed.

Lemma checkToolPermission_stable username (tool : Tool.t P) args w :
  let '(err, wa) := checkToolPermission username tool args w in
  ∀ w1, afterPlaceholders wa w1 →
        checkToolPermission username tool args w1 = (err, w1).
Proof.
  pose proof (checkToolPermission_world username tool args w) as Hworld.
  destruct (checkToolPermission username tool args w) as [err wa] eqn:Hrun.
  destruct Hworld as (Hwa & _).
  intros w1 Hlater. pose proof Hlater as (Hauth1 & Hroles1 & _).
  rewrite Hwa in Hauth1, Hroles1. simpl in Hauth1, Hroles1.
  revert Hrun.
  unfold checkToolPermission, AuthorizationEnabled_GetAsBool, GetRole. munfold.
  cbv beta iota zeta. rewrite Hauth1.
  destruct (AuthorizationEnabled w); cbn [negb]; [| by intros [= <- <-]].
  destruct (length (Tool.RequiredPrivileges tool) =? 0)%nat; [by intros [= <- <-] |].
  rewrite Hroles1.
  destruct (userRoles w username) as [roles [e |]]; [by intros [= <- <-] |].
  intros Hrun.
  pose proof (checkPrivileges_stable (Tool.RequiredPrivileges tool)
                (roles ++ [util_RolePublic])
                (GetString args "database" util_DefaultDBName) args w) as Hstable.
  rewrite Hrun in Hstable. by apply Hstable.
Qed.

(** X4.  The verdict of [checkToolPermission] is final while nobody
    grants or revokes: run again in the world it left, or in any later
    world that only has more negative placeholders, the check returns
    the same verdict and writes nothing. *)
Theorem checkToolPermission_repeatable username (tool : Tool.t P) args w :
  let '(err, w') := checkToolPermission username tool args w in
  checkToolPermission username tool args w' = (err, w')
  ∧ ∀ w1, afterPlaceholders w' w1 →
          checkToolPermission username tool args w1 = (err, w1).
Proof.
  pose proof (checkToolPermission_stable username tool args w) as Hstable.
  destruct (checkToolPermission username tool args w) as [err w'].
  split; [| exact Hstable]. apply Hstable, afterPlaceholders_refl.
Qed.

Lemma filterLoop_stable s username tools filtered w :
  let '(out, wa) := filterLoop s username tools filtered w in
  ∃ kept,
    out = filtered ++ kept
    ∧ ∀ w1 filtered', afterPlaceholders wa w1 →
        filterLoop s username tools filtered' w1 = (filtered' ++ kept, w1).
Proof.
  revert filtered w. induction tools as [| toolDesc tools IH]; intros filtered w; simpl.
  - munfold. exists []. split; [by rewrite app_nil_r |].
    intros w1 filtered' _. by rewrite app_nil_r.
  - destruct (Get (McpServer.catalog s) (McpToolDescription.Name toolDesc))
      as [tool |] eqn:Hget; [| apply IH].
    munfold.
    pose proof (checkToolPermission_stable username tool
                  {[ "database" := VString util_DefaultDBName ]} w) as Hcheck.
    destruct (checkToolPermission username tool _ w) as [err ws].
    destruct err as [e |].
    + pose proof (filterLoop_spec s username tools filtered ws) as Hspec.
      specialize (IH filtered ws).
      destruct (filterLoop s username tools filtered ws) as [out wa].
      destruct Hspec as (Hwa & Hpa & _).
      destruct IH as (kept & -> & Hkept). exists kept. split; [done |].
      intros w1 filtered' Hlater.
      rewrite (Hcheck w1); [by apply Hkept |].
      eapply afterPlaceholders_trans; [| exact Hlater].
      by apply afterPlaceholders_set_priCache.
    + pose proof (filterLoop_spec s username tools (filtered ++ [toolDesc]) ws) as Hspec.
      specialize (IH (filtered ++ [toolDesc]) ws).
      destruct (filterLoop s username tools (filtered ++ [toolDesc]) ws) as [out wa].
      destruct Hspec as (Hwa & Hpa & _).
      destruct IH as (kept & -> & Hkept). exists (toolDesc :: kept).
      split; [by rewrite <- app_assoc |].
      intros w1 filtered' Hlater.
      rewrite (Hcheck w1).
      * rewrite (Hkept w1 (filtered' ++ [toolDesc]) Hlater). by rewrite <- app_assoc.
      * eapply afterPlaceholders_trans; [| exact Hlater].
        by apply afterPlaceholders_set_priCache.
Qed.

Lemma filterToolsByPermission_stable s username tools w :
  let '(out, wa) := filterToolsByPermission s username tools w in
  ∀ w1, afterPlaceholders wa w1 →
        filterToolsByPermission s username tools w1 = (out, w1).
Proof.
  unfold filterToolsByPermission, AuthorizationEnabled_GetAsBool. munfold.
  destruct (AuthorizationEnabled w) eqn:Hauth; cbn [negb].
  - pose proof (filterLoop_stable s username tools [] w) as Hstable.
    pose proof (filterLoop_spec s username tools [] w) as Hspec.
    destruct (filterLoop s username tools [] w) as [out wa].
    destruct Hspec as (Hwa & _). destruct Hstable as (kept & -> & Hkept).
    intros w1 Hlater. pose proof Hlater as (Hauth1 & _).
    rewrite Hwa in Hauth1. simpl in Hauth1. rewrite Hauth1, Hauth. cbn [negb].
    by apply Hkept.
  - intros w1 (Hauth1 & _). by rewrite Hauth1, Hauth.
Qed.

(** X5.  When the role lookup fails under enabled authorization, access
    is closed: a tool with a requirement is denied with the lookup's
    error, and the listing filter keeps exactly the descriptions that
    name a tool without requirements, whatever the privilege cache
    holds; neither touches the cache. *)
Theorem role_lookup_failure_closes s username (tool : Tool.t P) args tools w e :
  AuthorizationEnabled w = true →
  (userRoles w username).2 = Some e →
  (Tool.RequiredPrivileges tool ≠ [] →
   checkToolPermission username tool args w = (Some e, w))
  ∧ filterToolsByPermission s username tools w
    = (List.filter (namesOpenTool s) tools, w).
Proof.
  intros Hauth Hroles.
  assert (Hcheck : ∀ (t : Tool.t P) a,
            checkToolPermission username t a w =
              (if (length (Tool.RequiredPrivileges t) =? 0)%nat then None else Some e, w)).
  { intros t a. unfold checkToolPermission, AuthorizationEnabled_GetAsBool, GetRole.
    munfold. rewrite Hauth. cbn [negb].
    destruct (length (Tool.RequiredPrivileges t) =? 0)%nat; [done |].
    destruct (userRoles w username) as [roles err]. simpl in Hroles. by rewrite Hroles. }
  split.
  - intros Hrequires. rewrite Hcheck.
    destruct (Tool.RequiredPrivileges tool); [done | reflexivity].
  - unfold filterToolsByPermission, AuthorizationEnabled_GetAsBool. munfold.
    rewrite Hauth. cbn [negb].
    change (List.filter (namesOpenTool s) tools)
      with ([] ++ List.filter (namesOpenTool s) tools).
    generalize (@nil McpToolDescription.t) as filtered.
    induction tools as [| toolDesc tools IH]; intros filtered; simpl.
    + munfold. by rewrite app_nil_r.
    + unfold namesOpenTool at 1.
      destruct (Get (McpServer.catalog s) (McpToolDescription.Name toolDesc))
        as [t |]; [| apply IH].
      munfold. rewrite Hcheck.
      destruct (length (Tool.RequiredPrivileges t) =? 0)%nat.
      * rewrite IH. by rewrite <- app_assoc.
      * apply IH.
Qed.

Lemma checkPrivileges_objectNames privileges roleNames dbName args args' w :
  (∀ privilege, privilege ∈ privileges →
     objectNameFor args dbName privilege = objectNameFor args' dbName privilege) →
  checkPrivileges privileges roleNames dbName args w
  = checkPrivileges privileges roleNames dbName args' w.
Proof.
  revert w. induction privileges as [| privilege privileges IH]; intros w Hnames;
    simpl; [done |].
  munfold. rewrite <- (Hnames privilege) by apply list_elem_of_here.
  destruct (scanRoles roleNames _ _ w) as [hasPermission ws].
  destruct hasPermission; simpl; [| done].
  apply IH. intros q Hq. apply Hnames. by apply list_elem_of_further.
Qed.

Lemma checkToolPermission_objectNames username (tool : Tool.t P) args args' w :
  GetString args "database" util_DefaultDBName
  = GetString args' "database" util_DefaultDBName →
  (∀ privilege, privilege ∈ Tool.RequiredPrivileges tool →
     objectNameFor args (GetString args "database" util_DefaultDBName) privilege
     = objectNameFor args' (GetString args "database" util_DefaultDBName) privilege) →
  checkToolPermission username tool args w = checkToolPermission username tool args' w.
Proof.
  intros Hdb Hnames. unfold checkToolPermission. munfold.
  destruct (AuthorizationEnabled_GetAsBool w) as [enabled w0].
  destruct (negb enabled); [done |].
  destruct (length (Tool.RequiredPrivileges tool) =? 0)%nat; [done |].
  destruct (GetRole username w0) as [[roles [e |]] w1]; [done |].
  rewrite <- Hdb. by apply checkPrivileges_objectNames.
Qed.

(** X6.  Authorization reads nothing of the arguments but the database
    and the fields the tool's requirements name: two argument maps that
    resolve these alike get the same verdict and leave the same world. *)
Theorem checkToolPermission_reads_named_fields username (tool : Tool.t P) args args' w :
  GetString args "database" util_DefaultDBName
  = GetString args' "database" util_DefaultDBName →
  (∀ privilege, privilege ∈ Tool.RequiredPrivileges tool →
     GetString args (PrivilegeRequirement.ObjectNameField privilege) "*"
     = GetString args' (PrivilegeRequirement.ObjectNameField privilege) "*") →
  checkToolPermission username tool args w = checkToolPermission username tool args' w.
Proof.
  intros Hdb Hfields. apply checkToolPermission_objectNames; [done |].
  intros privilege Hin. unfold objectNameFor. by rewrite (Hfields privilege Hin).
Qed.

Lemma objectNameFor_database args privilege :
  PrivilegeRequirement.ObjectType privilege = "Database" →
  PrivilegeRequirement.ObjectNameField privilege = "database" →
  objectNameFor args (GetString args "database" util_DefaultDBName) privilege
  = GetString args "database" util_DefaultDBName.
Proof.
  intros Htype Hfield. unfold objectNameFor. rewrite Htype, Hfield.
  rewrite bool_decide_eq_true_2 by done. cbn [andb].
  case_bool_decide as Hstar; [done |].
  unfold GetString in *. destruct (args !! "database") as [[]|]; try done.
  by case_decide.
Qed.

(** X7.  For a tool whose requirements are all on the database, read
    from the database field (collection.list and collection.create are
    the registered ones), a call that resolves to the default database
    gets the verdict the listing filter gets with its synthetic
    arguments: such a tool is listed exactly when calling it on the
    default database is allowed. *)
Theorem database_tool_call_agrees_with_listing username (tool : Tool.t P) args w :
  (∀ privilege, privilege ∈ Tool.RequiredPrivileges tool →
     PrivilegeRequirement.ObjectType privilege = "Database"
     ∧ PrivilegeRequirement.ObjectNameField privilege = "database") →
  GetString args "database" util_DefaultDBName = util_DefaultDBName →
  checkToolPermission username tool args w
  = checkToolPermission username tool {[ "database" := VString util_DefaultDBName ]} w.
Proof.
  intros Hscoped Hdefault.
  assert (Hlisting : GetString ({[ "database" := VString util_DefaultDBName ]}
                                  : gmap string Value) "database" util_DefaultDBName
                     = util_DefaultDBName).
  { unfold GetString. rewrite lookup_singleton_eq. by case_decide. }
  apply checkToolPermission_objectNames; [by rewrite Hlisting |].
  intros privilege Hin. destruct (Hscoped _ Hin) as [Htype Hfield].
  rewrite (objectNameFor_database args privilege Htype Hfield).
  rewrite Hdefault.
  pose proof (objectNameFor_database {[ "database" := VString util_DefaultDBName ]}
                privilege Htype Hfield) as Hname.
  rewrite Hlisting in Hname. by rewrite Hname.
Qed.
End PrivilegeStability.

Section Registry.
Context {P : Type} {proxyComponent : ProxyComponent P} {imports : Imports}
        {delegated : DelegatedTools P} {range : MapRange}.
Implicit Types (w : World P) (s : McpServer.t P) (c : Context.t) (req : McpRequest.t)
               (tc : ToolsCatalog.t P).

(** X8.  The registry is a key-value store on tool names: a tool just
    registered is fetched back unchanged under its name, and every
    other name fetches what it fetched before.  Registering a second
    tool of the same name replaces the first; registrations under
    different names can be swapped; and a catalog in which each tool
    sits under its own name stays so. *)
Theorem register_Get tc (tool other : Tool.t P) :
  Get (register tc tool) (Tool.Name tool) = Some tool
  ∧ (∀ name, name ≠ Tool.Name tool → Get (register tc tool) name = Get tc name)
  ∧ (Tool.Name other = Tool.Name tool →
     register (register tc other) tool = register tc tool)
  ∧ (Tool.Name other ≠ Tool.Name tool →
     register (register tc other) tool = register (register tc tool) other)
  ∧ (keyedByName tc → keyedByName (register tc tool)).
Proof.
  unfold Get, register. simpl. split_and!.
  - apply lookup_insert_eq.
  - intros name Hne. by apply lookup_insert_ne.
  - intros ->. by rewrite insert_insert_eq.
  - intros Hne. f_equal. by apply insert_insert_ne.
  - apply register_keyedByName.
Qed.

Lemma foldl_register_lookup (l : list (Tool.t P)) tc name tool :
  NoDup (Tool.Name <$> l) →
  ToolsCatalog.tools (foldl register tc l) !! name = Some tool ↔
    (tool ∈ l ∧ Tool.Name tool = name)
    ∨ ((name ∉ Tool.Name <$> l) ∧ ToolsCatalog.tools tc !! name = Some tool).
Proof.
  revert tc. induction l as [| t l IH]; intros tc Hnodup; simpl.
  - split; [intros ?; right; split; [apply not_elem_of_nil | done] |].
    intros [[Hin _] | [_ ?]]; [by apply elem_of_nil in Hin | done].
  - apply NoDup_cons in Hnodup as [Hfresh Hnodup].
    rewrite (IH _ Hnodup). unfold register. simpl. split.
    + intros [[Hin Hname] | [Hnotin Hlook]].
      * left. split; [by apply list_elem_of_further | done].
      * destruct (decide (Tool.Name t = name)) as [Heq | Hne].
        -- rewrite <- Heq, lookup_insert_eq in Hlook. injection Hlook as <-.
           left. split; [apply list_elem_of_here | done].
        -- rewrite lookup_insert_ne in Hlook by done.
           right. split; [| done].
           intros [-> | ?]%elem_of_cons; done.
    + intros [[[-> | Hin]%elem_of_cons Hname] | [Hnotin Hlook]].
      * right. subst name. split; [done | apply lookup_insert_eq].
      * left. done.
      * right. apply not_elem_of_cons in Hnotin as [Hne Hnotin].
        split; [done |]. by rewrite lookup_insert_ne.
Qed.

Lemma registeredTools_names :
  Tool.Name <$> registeredTools (P := P) =
    ["collection.list"; "collection.create"; "collection.describe"; "collection.drop";
     "data.insert"; "data.search"; "data.query"; "data.delete";
     "index.create"; "index.describe"].
Proof. reflexivity. Qed.

Lemma registeredTools_NoDup : NoDup (Tool.Name <$> registeredTools (P := P)).
Proof. rewrite registeredTools_names. apply (bool_decide_unpack _). vm_compute. exact I. Qed.

Lemma Get_NewToolsCatalog name (tool : Tool.t P) :
  Get NewToolsCatalog name = Some tool ↔ tool ∈ registeredTools ∧ Tool.Name tool = name.
Proof.
  unfold Get, NewToolsCatalog, registerAll.
  rewrite (foldl_register_lookup _ _ _ _ registeredTools_NoDup). simpl.
  split; [intros [? | [_ ?]]; done | by left].
Qed.

(** X9.  The catalog [NewToolsCatalog] builds holds exactly the ten
    tools of [registerAll], each under its own name: a name fetches a
    tool exactly when it is the name of one of the ten, the listing is
    their ten descriptions in whatever order the map yields them, and
    ping reports toolsCount 10. *)
Theorem NewToolsCatalog_contents :
  (∀ name tool,
     Get NewToolsCatalog name = Some tool ↔
     tool ∈ registeredTools (P := P) ∧ Tool.Name tool = name)
  ∧ List NewToolsCatalog ≡ₚ describe <$> registeredTools (P := P)
  ∧ size (ToolsCatalog.tools (NewToolsCatalog (P := P))) = 10%nat
  ∧ ∀ c req w,
      ∃ result,
        written (handlePing NewMcpServer c req w).2 =
          written w ++ [(StatusOK, successEnvelope (McpRequest.ID req) (RMap result))]
        ∧ result !! "toolsCount" = Some (VInt 10).
Proof.
  assert (Hmap : map_to_list (ToolsCatalog.tools (NewToolsCatalog (P := P)))
                 ≡ₚ (λ tool, (Tool.Name tool, tool)) <$> registeredTools).
  { apply NoDup_Permutation.
    - apply NoDup_map_to_list.
    - apply (NoDup_fmap_1 fst). rewrite <- list_fmap_compose.
      apply registeredTools_NoDup.
    - intros [name tool]. rewrite elem_of_map_to_list.
      rewrite (Get_NewToolsCatalog name tool). rewrite list_elem_of_fmap. split.
      + intros [Hin <-]. by exists tool.
      + intros (t & [= -> ->] & Hin). done. }
  assert (Hsize : size (ToolsCatalog.tools (NewToolsCatalog (P := P))) = 10%nat).
  { rewrite <- length_map_to_list. rewrite Hmap. reflexivity. }
  split_and!.
  - apply Get_NewToolsCatalog.
  - unfold List. rewrite rangeOver_perm, Hmap. rewrite <- list_fmap_compose.
    reflexivity.
  - exact Hsize.
  - intros c req w. unfold handlePing, time_Now. munfold.
    change (McpServer.catalog NewMcpServer) with (NewToolsCatalog (P := P)).
    rewrite Hsize. eexists. split; reflexivity.
Qed.

(** X10.  In a catalog filled through [register], the listing and the
    lookup agree: the listing has one entry per registered tool, no two
    entries share a name, and each entry's name fetches a tool whose
    description is that entry. *)
Theorem List_agrees_with_Get tc :
  keyedByName tc →
  length (List tc) = size (ToolsCatalog.tools tc)
  ∧ NoDup (McpToolDescription.Name <$> List tc)
  ∧ ∀ toolDesc, toolDesc ∈ List tc →
      ∃ tool, Get tc (McpToolDescription.Name toolDesc) = Some tool
              ∧ describe tool = toolDesc.
Proof.
  intros Hkeyed. unfold List.
  assert (Hnames : McpToolDescription.Name <$>
                     ((λ kv : string * Tool.t P, describe kv.2) <$>
                        map_to_list (ToolsCatalog.tools tc))
                   = (map_to_list (ToolsCatalog.tools tc)).*1).
  { rewrite <- list_fmap_compose. apply list_fmap_ext.
    intros i [name tool] Hlook. simpl.
    apply list_elem_of_lookup_2, elem_of_map_to_list in Hlook. by apply Hkeyed. }
  split_and!.
  - rewrite length_fmap, rangeOver_perm. apply length_map_to_list.
  - rewrite rangeOver_perm, Hnames. apply NoDup_fst_map_to_list.
  - intros toolDesc ([name tool] & -> & Hin)%list_elem_of_fmap.
    rewrite rangeOver_perm in Hin. apply elem_of_map_to_list in Hin.
    exists tool. split; [| done]. simpl. unfold Get. by rewrite (Hkeyed _ _ Hin).
Qed.
End Registry.

Section ListingSettled.
Context {P : Type} {imports : Imports}.
Implicit Types (w : World P) (s : McpServer.t P).

Lemma filterLoop_settled s username tools filtered w :
  let '(out, wa) := filterLoop s username tools filtered w in
  out = filtered ++ filter (λ toolDesc, listable s username wa toolDesc = true) tools
  ∧ ∀ w1, afterPlaceholders wa w1 →
      ∀ toolDesc tool,
        toolDesc ∈ tools →
        Get (McpServer.catalog s) (McpToolDescription.Name toolDesc) = Some tool →
        checkToolPermission username tool
          {[ "database" := VString util_DefaultDBName ]} w1
        = ((checkToolPermission username tool
              {[ "database" := VString util_DefaultDBName ]} wa).1, w1).
Proof.
  revert filtered w. induction tools as [| toolDesc tools IH]; intros filtered w; simpl.
  - munfold. split; [by rewrite app_nil_r |].
    intros w1 _ d tool Hd. by apply elem_of_nil in Hd.
  - destruct (Get (McpServer.catalog s) (McpToolDescription.Name toolDesc))
      as [tool |] eqn:Hget.
    2: { specialize (IH filtered w).
         destruct (filterLoop s username tools filtered w) as [out wa].
         destruct IH as [-> Hsettled]. split.
         - rewrite filter_cons_False; [done |]. unfold listable. by rewrite Hget.
         - intros w1 Hlater d tool [-> | Hd]%elem_of_cons Hd'; [congruence |].
           by apply (Hsettled w1 Hlater d). }
    munfold.
    pose proof (checkToolPermission_stable username tool
                  {[ "database" := VString util_DefaultDBName ]} w) as Hcheck.
    destruct (checkToolPermission username tool _ w) as [err ws].
    set (filtered' := match err with Some _ => filtered | None => filtered ++ [toolDesc] end).
    assert (Hloop : (match err with
                     | Some _ => filterLoop s username tools filtered
                     | None => filterLoop s username tools (filtered ++ [toolDesc])
                     end) ws = filterLoop s username tools filtered' ws)
      by (by destruct err).
    rewrite Hloop. clear Hloop.
    pose proof (filterLoop_spec s username tools filtered' ws) as Hspec.
    specialize (IH filtered' ws).
    destruct (filterLoop s username tools filtered' ws) as [out wa].
    destruct Hspec as (Hwa & Hpa & _). destruct IH as [-> Hsettled].
    assert (Hafter : afterPlaceholders ws wa)
      by (rewrite Hwa; by apply afterPlaceholders_set_priCache).
    assert (Hhere : ∀ w1, afterPlaceholders wa w1 →
              checkToolPermission username tool
                {[ "database" := VString util_DefaultDBName ]} w1
              = ((checkToolPermission username tool
                    {[ "database" := VString util_DefaultDBName ]} wa).1, w1)).
    { intros w1 Hlater. rewrite (Hcheck wa Hafter). simpl. apply Hcheck.
      by eapply afterPlaceholders_trans. }
    split.
    + subst filtered'. destruct err as [e |].
      * rewrite filter_cons_False; [done |].
        unfold listable. by rewrite Hget, (Hcheck wa Hafter).
      * rewrite filter_cons_True; [by rewrite <- app_assoc |].
        unfold listable. by rewrite Hget, (Hcheck wa Hafter).
    + intros w1 Hlater d tool' [-> | Hd]%elem_of_cons Hd'.
      * assert (tool' = tool) as -> by congruence. by apply Hhere.
      * by apply (Hsettled w1 Hlater d).
Qed.

Lemma filterLoop_checked s username tools filtered w1 :
  (∀ toolDesc tool,
     toolDesc ∈ tools →
     Get (McpServer.catalog s) (McpToolDescription.Name toolDesc) = Some tool →
     (checkToolPermission username tool
        {[ "database" := VString util_DefaultDBName ]} w1).2 = w1) →
  filterLoop s username tools filtered w1
  = (filtered ++ filter (λ toolDesc, listable s username w1 toolDesc = true) tools, w1).
Proof.
  revert filtered. induction tools as [| toolDesc tools IH]; intros filtered Hsame; simpl.
  - munfold. by rewrite app_nil_r.
  - assert (Hrest : ∀ d tool, d ∈ tools →
              Get (McpServer.catalog s) (McpToolDescription.Name d) = Some tool →
              (checkToolPermission username tool
                 {[ "database" := VString util_DefaultDBName ]} w1).2 = w1)
      by (intros d tool Hd; apply Hsame; by apply list_elem_of_further).
    destruct (Get (McpServer.catalog s) (McpToolDescription.Name toolDesc))
      as [tool |] eqn:Hget.
    2: { rewrite (IH filtered Hrest), filter_cons_False; [done |].
         unfold listable. by rewrite Hget. }
    munfold.
    pose proof (Hsame toolDesc tool (list_elem_of_here _ _) Hget) as Hw1.
    destruct (checkToolPermission username tool _ w1) as [err ws] eqn:Hrun.
    simpl in Hw1. subst ws. destruct err as [e |].
    + rewrite (IH filtered Hrest), filter_cons_False; [done |].
      unfold listable. by rewrite Hget, Hrun.
    + rewrite (IH _ Hrest), filter_cons_True; [by rewrite <- app_assoc |].
      unfold listable. by rewrite Hget, Hrun.
Qed.

Lemma filter_listable_agree s username wa w1 (tools1 tools2 : list McpToolDescription.t) :
  (∀ toolDesc, toolDesc ∈ tools2 → toolDesc ∈ tools1) →
  (∀ toolDesc tool,
     toolDesc ∈ tools1 →
     Get (McpServer.catalog s) (McpToolDescription.Name toolDesc) = Some tool →
     checkToolPermission username tool
       {[ "database" := VString util_DefaultDBName ]} w1
     = ((checkToolPermission username tool
           {[ "database" := VString util_DefaultDBName ]} wa).1, w1)) →
  filter (λ toolDesc, listable s username w1 toolDesc = true) tools2
  = filter (λ toolDesc, listable s username wa toolDesc = true) tools2.
Proof.
  intros Hin Hsettled. induction tools2 as [| d tools2 IH]; [done |].
  rewrite !filter_cons, IH by (intros ? ?; apply Hin; by apply list_elem_of_further).
  assert (Hd : listable s username w1 d = listable s username wa d).
  { unfold listable.
    destruct (Get (McpServer.catalog s) (McpToolDescription.Name d)) as [tool |] eqn:Hget;
      [| done].
    by rewrite (Hsettled d tool (Hin d (list_elem_of_here _ _)) Hget). }
  rewrite Hd. by destruct (decide _).
Qed.

(** A listing filtered after an earlier one over the same tools, visited
    in any order, keeps the same tools, in its own order, and writes
    nothing. *)
Lemma filterToolsByPermission_permuted s username
    (tools1 tools2 : list McpToolDescription.t) w :
  tools1 ≡ₚ tools2 →
  let '(listed1, wa) := filterToolsByPermission s username tools1 w in
  ∀ w1, afterPlaceholders wa w1 →
    ∃ listed2,
      filterToolsByPermission s username tools2 w1 = (listed2, w1)
      ∧ listed1 ≡ₚ listed2
      ∧ (tools1 = tools2 → listed1 = listed2).
Proof.
  intros Hperm.
  pose proof (filterToolsByPermission_frame s username tools1 w) as Hframe.
  unfold filterToolsByPermission, AuthorizationEnabled_GetAsBool in *. munfold.
  destruct (AuthorizationEnabled w) eqn:Hauth; simpl in *.
  - pose proof (filterLoop_settled s username tools1 [] w) as Hsettled.
    destruct (filterLoop s username tools1 [] w) as [listed1 wa].
    destruct Hsettled as [-> Hsettled]. destruct Hframe as [Hwa _].
    assert (Hautha : AuthorizationEnabled wa = true) by (by rewrite Hwa).
    intros w1 Hlater. pose proof Hlater as (Hauth1 & _).
    rewrite Hauth1, Hautha. simpl.
    rewrite filterLoop_checked.
    2: { intros d tool Hd Hget. rewrite (Hsettled w1 Hlater d tool); [done | | done].
         by rewrite Hperm. }
    eexists. split; [done |]. simpl.
    rewrite (filter_listable_agree s username wa w1 tools1 tools2);
      [| intros d; by rewrite Hperm | intros d tool; by apply (Hsettled w1 Hlater d)].
    split; [by rewrite Hperm | by intros ->].
  - destruct Hframe as [Hwa _].
    assert (Hautha : AuthorizationEnabled w = false) by (by rewrite Hwa).
    intros w1 (Hauth1 & _). rewrite Hauth1, Hautha. simpl.
    exists tools2. by split_and!.
Qed.

Lemma handleToolsList_run {range : MapRange} s (c : Context.t) (req : McpRequest.t)
    w listed wa :
  filterToolsByPermission s (callerOf c) (List (McpServer.catalog s)) w = (listed, wa) →
  handleToolsList s c req w =
    (tt, set_respHeader
           (set_written wa (written wa ++
              [(StatusOK,
                successEnvelope (McpRequest.ID req)
                  (RToolsList {| McpToolsListResult.Tools := listed;
                                 McpToolsListResult.NextCursor := "" |}))]))
           (<[MCPHeaderProtocolVersion := getProtocolVersion c req]> (respHeader wa))).
Proof. intros Hfilter. unfold handleToolsList. munfold. by rewrite Hfilter. Qed.

(** X11.  Two tools/list requests in a row from the same caller list
    the same tools.  Each request ranges over the registry map anew, so
    the two listings may come in different orders ([range1] and
    [range2] are the orders of the two ranges): the second listing is a
    permutation of the first, and equal to it when the two ranges visit
    the registry in the same order.  The second request leaves the
    privilege cache as the first left it: the placeholders written
    while listing never change what is listed. *)
Theorem handleToolsList_repeatable (range1 range2 : MapRange) s
    (c : Context.t) (req : McpRequest.t) (c' : Context.t) (req' : McpRequest.t) w :
  callerOf c' = callerOf c →
  let w1 := (@handleToolsList P imports range1 s c req w).2 in
  let w2 := (@handleToolsList P imports range2 s c' req' w1).2 in
  ∃ listed1 listed2,
    written w1 = written w ++
      [(StatusOK,
        successEnvelope (McpRequest.ID req)
          (RToolsList {| McpToolsListResult.Tools := listed1;
                         McpToolsListResult.NextCursor := "" |}))]
    ∧ written w2 = written w1 ++
      [(StatusOK,
        successEnvelope (McpRequest.ID req')
          (RToolsList {| McpToolsListResult.Tools := listed2;
                         McpToolsListResult.NextCursor := "" |}))]
    ∧ listed1 ≡ₚ listed2
    ∧ (@List P range1 (McpServer.catalog s) = @List P range2 (McpServer.catalog s) →
       listed1 = listed2)
    ∧ priCache w2 = priCache w1.
Proof.
  intros Hcaller.
  assert (Htools : @List P range1 (McpServer.catalog s)
                   ≡ₚ @List P range2 (McpServer.catalog s))
    by (unfold List; by rewrite !rangeOver_perm).
  pose proof (filterToolsByPermission_permuted s (callerOf c) _ _ w Htools) as Hsecond.
  pose proof (filterToolsByPermission_frame s (callerOf c)
                (@List P range1 (McpServer.catalog s)) w) as Hframe.
  destruct (filterToolsByPermission s (callerOf c)
              (@List P range1 (McpServer.catalog s)) w) as [listed1 wa] eqn:Hfilter.
  destruct Hframe as [Hwa _].
  rewrite (handleToolsList_run (range := range1) s c req w listed1 wa Hfilter). cbn [snd].
  set (w1 := set_respHeader _ _).
  assert (Hlater : afterPlaceholders wa w1)
    by (split_and!; [done | done | apply placeholdersAdded_refl]).
  destruct (Hsecond w1 Hlater) as (listed2 & Hrun2 & Hperm & Hsame).
  rewrite (handleToolsList_run (range := range2) s c' req' w1 listed2 w1)
    by (by rewrite Hcaller).
  exists listed1, listed2. split_and!; [| done | done | done | done].
  subst w1. simpl. by rewrite Hwa.
Qed.
End ListingSettled.

Section Handlers.
Context {P : Type} {proxyComponent : ProxyComponent P} {imports : Imports}
        {delegated : DelegatedTools P} {range : MapRange}.
Implicit Types (w : World P) (s : McpServer.t P) (c : Context.t) (req : McpRequest.t).

(** X12.  An initialize request without an explicit version, or with
    one of the two supported ones, is answered with exactly one
    response, a success envelope with status 200, whose result has
    protocolVersion and serverInfo.version both equal to the version
    [getProtocolVersion] negotiates, which is one of "2025-03-26" and
    "2025-06-18"; a protocolVersion parameter that is not a string
    counts as absent.  The capabilities are fixed: listChanged and
    subscribe false, structuredOutput true.  The response body aside,
    the handler leaves the world as it was, but for the header map of
    the writer, of which nothing is said here. *)
Theorem handleInitialize_negotiated c req w :
  (∀ version, McpRequest.Params req !! ParamProtocolVersion = Some (VString version) →
              version = "2025-03-26" ∨ version = "2025-06-18") →
  let version := getProtocolVersion c req in
  ∃ result header,
    handleInitialize c req w =
      (tt, set_respHeader
             (set_written w (written w ++
                [(StatusOK, successEnvelope (McpRequest.ID req) (RInitialize result))]))
             header)
    ∧ McpInitializeResult.ProtocolVersion result = version
    ∧ McpServerInfo.Version (McpInitializeResult.ServerInfo result) = version
    ∧ (version = "2025-03-26" ∨ version = "2025-06-18")
    ∧ McpInitializeResult.Capabilities result =
        {| McpCapabilities.Tools := Some {| ToolsCapability.ListChanged := false |};
           McpCapabilities.Resources :=
             Some {| ResourcesCapability.Subscribe := false;
                     ResourcesCapability.ListChanged := false |};
           McpCapabilities.Prompts := Some {| PromptsCapability.ListChanged := false |};
           McpCapabilities.Logging := Some LoggingCapability.mk;
           McpCapabilities.Experimental :=
             Some {| ExperimentalCapability.StructuredOutput := true |} |}.
Proof.
  intros Hsupported version.
  assert (Hversion : version = "2025-03-26" ∨ version = "2025-06-18").
  { subst version. unfold getProtocolVersion.
    destruct (match McpRequest.Params req !! ParamProtocolVersion with
              | Some (VString v) => bool_decide (v = "2025-03-26")
              | _ => false
              end); [by left |].
    case_bool_decide; [by left | by right]. }
  unfold handleInitialize. fold version.
  assert (Haccepted :
            match McpRequest.Params req !! ParamProtocolVersion with
            | Some (VString v) =>
                bool_decide (v ≠ "2025-03-26") && bool_decide (v ≠ "2025-06-18")
            | _ => false
            end = false).
  { destruct (McpRequest.Params req !! ParamProtocolVersion) as [[]|]; try done.
    destruct (Hsupported _ eq_refl) as [-> | ->]; done. }
  rewrite Haccepted. eexists _, _. split; [reflexivity |]. by split_and!.
Qed.


(** X14.  With authorization disabled, a tools/call of
    collection.create whose arguments lack collection_name, or have it
    and lack dimension, is answered with a success envelope carrying an
    error-flagged tool result that names the first missing parameter;
    apart from that response the world is untouched, so no call reaches
    the proxy component. *)
Theorem tools_call_create_missing_parameter c req w key :
  McpRequest.Params req !! "name" = Some (VString "collection.create") →
  AuthorizationEnabled w = false →
  (key = "collection_name" ∧ argumentsOf req !! "collection_name" = None)
  ∨ (key = "dimension" ∧ is_Some (argumentsOf req !! "collection_name")
     ∧ argumentsOf req !! "dimension" = None) →
  handleToolsCall NewMcpServer c req w =
    (tt, set_written w (written w ++
           [(StatusOK,
             successEnvelope (McpRequest.ID req)
               (RToolResult
                  {| McpToolResult.Content :=
                       textContent ("Error: required parameter '" +:+ key
                                    +:+ "' is missing");
                     McpToolResult.IsError := true;
                     McpToolResult.StructuredContent := VNil |}))])).
Proof.
  intros Hname Hauth Hmissing.
  assert (Hget : ∃ tool, Get (McpServer.catalog NewMcpServer) "collection.create"
                         = Some tool
                         ∧ Tool.Execute tool = createCollection).
  { eexists. split; [reflexivity | reflexivity]. }
  destruct Hget as (tool & Hget & Hexecute).
  assert (Hcheck : checkToolPermission (callerOf c) tool (argumentsOf req) w = (None, w)).
  { unfold checkToolPermission, AuthorizationEnabled_GetAsBool. munfold.
    by rewrite Hauth. }
  unfold handleToolsCall. rewrite Hname. cbv beta iota zeta.
  rewrite bool_decide_eq_false_2 by done. cbn [negb orb].
  rewrite Hget. munfold. rewrite Hcheck, Hexecute.
  assert (Hrequire :
            Require_ (argumentsOf req) [ParamCollectionNameKey; ParamDimensionKey]
            = Some (errors_New ("required parameter '" +:+ key +:+ "' is missing"))).
  { simpl. unfold ParamCollectionNameKey, ParamDimensionKey.
    destruct Hmissing as [[-> Hcoll] | (-> & [v Hcoll] & Hdim)].
    - by rewrite Hcoll.
    - by rewrite Hcoll, Hdim. }
  unfold createCollection. by rewrite Hrequire.
Qed.

(** X15.  The four auxiliary methods answer with exactly one response,
    a success envelope with status 200 carrying a fixed one-entry
    result (an empty list of prompts, resources or resource templates,
    or acknowledged = true), whoever calls and whatever the
    authorization state; that response body and the header map of the
    writer aside, of which nothing is said here, they leave the world
    as it was, the privilege cache and the proxy component included. *)
Theorem handleMcpRequest_auxiliary s c w req method key value :
  ShouldBindJSON (Context.Body c) = (req, None) →
  McpRequest.Method req = method →
  (method, key, value) ∈
    [("prompts/list", "prompts", VArray []);
     ("resources/list", "resources", VArray []);
     ("resources/templates/list", "resourceTemplates", VArray []);
     ("notifications/initialized", "acknowledged", VBool true)] →
  ∃ header,
    handleMcpRequest s c w =
      (tt, set_respHeader
             (set_written w (written w ++
                [(StatusOK,
                  successEnvelope (McpRequest.ID req) (RMap {[ key := value ]}))]))
             header).
Proof.
  intros Hbind Hmethod Hrow. unfold handleMcpRequest. rewrite Hbind, Hmethod.
  repeat (apply elem_of_cons in Hrow as [[= -> -> ->] | Hrow];
          [eexists; reflexivity |]).
  by apply elem_of_nil in Hrow.
Qed.
End Handlers.

Section Arguments.
Implicit Types (args : gmap string Value).

(** X16.  [Require] passes exactly when every listed key is present in
    the arguments, whatever the value under it (a null counts as
    present); otherwise the error names the first listed key that is
    absent. *)
Theorem Require_first_missing args keys :
  (Require_ args keys = None ↔ Forall (λ key, is_Some (args !! key)) keys)
  ∧ ∀ pre key post,
      keys = pre ++ key :: post →
      Forall (λ k, is_Some (args !! k)) pre →
      args !! key = None →
      Require_ args keys =
        Some (errors_New ("required parameter '" +:+ key +:+ "' is missing")).
Proof.
  split.
  - induction keys as [| k keys IH]; simpl; [done |].
    destruct (args !! k) eqn:Hk.
    + rewrite IH, Forall_cons. rewrite Hk. split; [by split | by intros [_ ?]].
    + split; [done |]. intros [[? Hsome] _]%Forall_cons. congruence.
  - intros pre key post -> Hpre Hkey.
    induction Hpre as [| k pre [v Hk] Hpre IH]; simpl; [by rewrite Hkey | by rewrite Hk].
Qed.

(** X17.  [GetStringSlice] keeps the string elements of the array in
    their order and silently drops every other element; it loses
    nothing when all elements are strings, and yields the empty slice
    when the key is absent or does not hold an array. *)
Theorem GetStringSlice_strings args key :
  (∀ items, args !! key = Some (VArray items) →
     VString <$> GetStringSlice args key `sublist_of` items
     ∧ (∀ s, s ∈ GetStringSlice args key ↔ VString s ∈ items)
     ∧ ∀ strings, items = VString <$> strings → GetStringSlice args key = strings)
  ∧ ((∀ items, args !! key ≠ Some (VArray items)) → GetStringSlice args key = []).
Proof.
  unfold GetStringSlice. split.
  - intros items ->.
    set (pick := λ item : Value, match item with VString s => Some s | _ => None end).
    split_and!.
    + induction items as [| item items IH]; simpl; [done |].
      destruct item; simpl; try (by apply sublist_cons). by apply sublist_skip.
    + intros s. rewrite list_elem_of_omap. split.
      * intros (item & Hin & Hpick). destruct item; try done. by injection Hpick as ->.
      * intros Hin. by exists (VString s).
    + intros strings ->. induction strings as [| s strings IH]; [done |].
      simpl. f_equal. exact IH.
  - intros Hnot. destruct (args !! key) as [[]|]; try done. by edestruct Hnot.
Qed.
End Arguments.

Section Schemas.

(** X18.  The schema builder assembles without validating: adding a
    parameter declares it (replacing one of the same name) and keeps
    every other declaration; adding required names appends them, in
    order and without merging duplicates.  Starting from the empty
    schema, requiring only declared names keeps every required name
    declared; requiring an undeclared name is accepted and leaves a
    required name without a declaration. *)
Theorem schema_builder s name param names :
  ToolSchema.Properties (AddParameter s name param) !! name = Some param
  ∧ (∀ other, other ≠ name →
       ToolSchema.Properties (AddParameter s name param) !! other
       = ToolSchema.Properties s !! other)
  ∧ ToolSchema.Required (AddRequired s names) = ToolSchema.Required s ++ names
  ∧ requiredDeclared NewToolSchema
  ∧ (requiredDeclared s → requiredDeclared (AddParameter s name param))
  ∧ (requiredDeclared s →
     (requiredDeclared (AddRequired s names)
      ↔ ∀ n, n ∈ names → is_Some (ToolSchema.Properties s !! n))).
Proof.
  split_and!.
  - apply lookup_insert_eq.
  - intros other Hne. by apply lookup_insert_ne.
  - done.
  - intros n Hn. by apply elem_of_nil in Hn.
  - intros Hdecl n Hn. simpl in *.
    destruct (decide (name = n)) as [-> | Hne].
    + rewrite lookup_insert_eq. by eexists.
    + rewrite lookup_insert_ne by done. by apply Hdecl.
  - intros Hdecl. unfold requiredDeclared. simpl. split.
    + intros Hall n Hn. apply Hall. apply elem_of_app. by right.
    + intros Hnames n [Hn | Hn]%elem_of_app; [by apply Hdecl | by apply Hnames].
Qed.
End Schemas.

Section RegistrySchemas.
Context {P : Type} {proxyComponent : ProxyComponent P} {imports : Imports}
        {delegated : DelegatedTools P}.

(** X19.  Every tool of the built catalog declares exactly one
    privilege requirement, has an input schema of type "object" whose
    required names are all declared parameters, and an output schema,
    when it has one, of the same kind.  A requirement on the database
    reads the object name from the database field, one on a collection
    from the collection_name field, which the input schema declares. *)
Theorem registered_tools_well_formed name (tool : Tool.t P) :
  Get NewToolsCatalog name = Some tool →
  (∃ input, Tool.InputSchema tool = Some input
            ∧ ToolSchema.Type_ input = "object"
            ∧ requiredDeclared input
            ∧ ∃ privilege,
                Tool.RequiredPrivileges tool = [privilege]
                ∧ is_Some (ToolSchema.Properties input
                             !! PrivilegeRequirement.ObjectNameField privilege)
                ∧ ((PrivilegeRequirement.ObjectType privilege = "Database"
                    ∧ PrivilegeRequirement.ObjectNameField privilege = "database")
                   ∨ (PrivilegeRequirement.ObjectType privilege = "Collection"
                      ∧ PrivilegeRequirement.ObjectNameField privilege
                        = "collection_name")))
  ∧ (∀ output, Tool.OutputSchema tool = Some output →
               ToolSchema.Type_ output = "object" ∧ requiredDeclared output).
Proof.
  intros [Hin _]%Get_NewToolsCatalog.
  assert (Hdecl : ∀ s : ToolSchema.t,
            Forall (λ n, is_Some (ToolSchema.Properties s !! n)) (ToolSchema.Required s) →
            requiredDeclared s).
  { intros s Hall n Hn. by eapply Forall_forall in Hall. }
  unfold registeredTools in Hin.
  repeat (apply elem_of_cons in Hin as [-> | Hin];
          [ split;
            [ eexists; split; [reflexivity |]; split; [reflexivity |];
              split; [apply Hdecl; repeat constructor; by eexists |];
              eexists; split; [reflexivity |]; split; [by eexists |];
              first [ left; split; reflexivity | right; split; reflexivity ]
            | intros output Houtput;
              first [ discriminate Houtput
                    | injection Houtput as <-; split; [reflexivity |];
                      apply Hdecl; repeat constructor; by eexists ] ] |]).
  by apply elem_of_nil in Hin.
Qed.
End RegistrySchemas.

Section CollectionTools.
Context {P : Type} {proxyComponent : ProxyComponent P}
        {proxyDrop : ProxyDropCollection P} {imports : Imports}.
Implicit Types (w : World P) (args : gmap string Value).

Lemma createCollection_leavesResponse :
  leavesResponse (createCollection (P := P)).
Proof.
  intros args w. unfold createCollection.
  destruct (Require_ args _); [done |].
  destruct (_ <=? 0); [done |].
  destruct (proto_Marshal _) as [schemaBytes [err |]]; [done |].
  munfold. unfold proxy_CreateCollection.
  destruct (CreateCollection (proxy w) _) as [[resp [err |]] p1]; simpl; [done |].
  destruct (GetCode resp =? 0); simpl; [| done].
  unfold proxy_CreateIndex. simpl.
  by destruct (CreateIndex p1 _) as [indexResult p2].
Qed.


(** X21.  [createCollection] with both required keys present refuses
    every dimension that reads as an integer not above zero, before
    anything reaches the proxy component, and the error quotes the
    integer read.  A dimension that is not a number (a string such as
    "128", a boolean, null, an array, an object) reads as 0. *)
Theorem createCollection_rejects_dimension args w value :
  is_Some (args !! "collection_name") →
  args !! "dimension" = Some value →
  (GetInt args "dimension" 0 ≤ 0 →
   createCollection args w =
     (Err (errors_New ("dimension must be positive, got "
                       +:+ itoa (GetInt args "dimension" 0))), w))
  ∧ ((∀ f, value ≠ VFloat64 f) → (∀ n, value ≠ VInt n) → (∀ n, value ≠ VInt64 n) →
     createCollection args w =
       (Err (errors_New "dimension must be positive, got 0"), w)).
Proof.
  intros Hname Hdim.
  assert (Hreject : GetInt args "dimension" 0 ≤ 0 →
            createCollection args w =
              (Err (errors_New (ErrDimensionPositive (GetInt args "dimension" 0))), w)).
  { intros Hle. unfold createCollection.
    rewrite Require_present by (by rewrite ?Hdim).
    unfold ParamDimensionKey.
    by destruct (Z.leb_spec (GetInt args "dimension" 0) 0) as [_ | Hgt]; [| lia]. }
  split; [exact Hreject |].
  intros Hfloat Hint Hint64.
  assert (Hzero : GetInt args "dimension" 0 = 0).
  { unfold GetInt. rewrite Hdim. destruct value; try done.
    - by destruct (Hfloat f).
    - by destruct (Hint n).
    - by destruct (Hint64 n). }
  rewrite Hreject by lia. by rewrite Hzero.
Qed.

(** X22.  [createCollection] checks that collection_name is present,
    not what it holds: when the value under it is the empty string or
    not a string at all, and the dimension is positive and the schema
    marshals, the proxy component is asked to create the collection
    named by the empty string. *)
Theorem createCollection_unnamed args w value schemaBytes :
  args !! "collection_name" = Some value →
  (∀ name, value = VString name → name = "") →
  is_Some (args !! "dimension") →
  0 < GetInt args "dimension" 0 →
  proto_Marshal (collectionSchemaFor "" (GetInt args "dimension" 0))
    = (schemaBytes, None) →
  ∃ calls,
    proxyCalls (createCollection args w).2 =
      proxyCalls w ++
        CallCreateCollection
          {| CreateCollectionRequest.DbName :=
               GetString args "database" util_DefaultDBName;
             CreateCollectionRequest.CollectionName := "";
             CreateCollectionRequest.Schema := schemaBytes |} :: calls.
Proof.
  intros Hname Hempty Hdim Hpositive Hmarshal.
  assert (Hcoll : GetString args ParamCollectionNameKey "" = "").
  { unfold GetString, ParamCollectionNameKey. rewrite Hname.
    destruct value; try done. case_decide; [done |]. by rewrite (Hempty s). }
  unfold createCollection.
  rewrite Require_present by (by rewrite ?Hname).
  rewrite Hcoll. unfold ParamDimensionKey.
  destruct (Z.leb_spec (GetInt args "dimension" 0) 0) as [Hle | _]; [lia |].
  rewrite Hmarshal. munfold. unfold proxy_CreateCollection.
  destruct (CreateCollection (proxy w) _) as [[resp [err |]] p1]; simpl.
  { by exists []. }
  destruct (GetCode resp =? 0); simpl; [| by exists []].
  unfold proxy_CreateIndex. simpl.
  destruct (CreateIndex p1 _) as [indexResult p2]. simpl.
  eexists [_]. by rewrite <- app_assoc.
Qed.

(** X23.  [dropCollection] without the collection_name key fails with
    the missing-parameter error and calls nothing.  With the key, it
    calls drop-collection once, for the database of the arguments
    ("default" when none is given) and the collection named, and it
    reports status "dropped" exactly when that call returned no error
    and code 0; an error is passed on as it is, and any other code
    becomes an error made from the status reason. *)
Theorem dropCollection_outcome args w :
  (args !! "collection_name" = None →
   Catalog.dropCollection args w =
     (Err (errors_New "required parameter 'collection_name' is missing"), w))
  ∧ (is_Some (args !! "collection_name") →
     let dbName := GetString args "database" "default" in
     let collectionName := GetString args "collection_name" "" in
     let '((resp, err), p') :=
       DropCollection (proxy w)
         {| DropCollectionRequest.DbName := dbName;
            DropCollectionRequest.CollectionName := collectionName |} in
     Catalog.dropCollection args w =
       (match err with
        | Some err => Err err
        | None =>
            if GetCode resp =? 0
            then Ok (NewToolResultWithData
                       (MsgCollectionDropSuccess collectionName)
                       (VObject (droppedData collectionName dbName)))
            else Err (fmt_Errorf (GetReason resp))
        end,
        set_proxy w p' (proxyCalls w))
     ∧ droppedData collectionName dbName !! "status" = Some (VString "dropped")).
Proof.
  unfold Catalog.dropCollection. split.
  - intros Hnone.
    assert (Require_ args ["collection_name"] =
              Some (errors_New "required parameter 'collection_name' is missing")) as ->
      by (simpl; by rewrite Hnone).
    done.
  - intros [v Hname].
    assert (Require_ args ["collection_name"] = None) as -> by (simpl; by rewrite Hname).
    munfold. unfold proxy_DropCollection.
    destruct (DropCollection (proxy w) _) as [[resp [err |]] p']; simpl; [done |].
    by destruct (GetCode resp =? 0).
Qed.
End CollectionTools.

(** * Further examples on the concrete deployment *)

Section FurtherExamples.
Local Existing Instances demoImports demoProxy demoTools demoRange demoDropProxy.

(** X1 at work: the method foo/bar. *)
Lemma handleMcpRequest_unknown_method_witness :
  responseOf (handleMcpRequest demoServer (demoBodyContext "foo/bar") demoWorld).2
  = Some (errorEnvelope (VFloat64 1%float) (-32601) "Method not found: foo/bar" VNil).
Proof.
  rewrite (handleMcpRequest_unknown_method demoServer (demoBodyContext "foo/bar") demoWorld
             {| McpRequest.Jsonrpc := "2.0"; McpRequest.ID := VFloat64 1%float;
                McpRequest.Method := "foo/bar"; McpRequest.Params := ∅ |}).
  - reflexivity.
  - reflexivity.
  - intros Hin. simpl in Hin.
    repeat (apply elem_of_cons in Hin as [Hin | Hin]; [discriminate Hin |]).
    by apply elem_of_nil in Hin.
Defined.

(** X2 at work: an empty body. *)
Lemma handleMcpRequest_parse_error_witness :
  responseOf (handleMcpRequest demoServer (demoBodyContext "") demoWorld).2
  = Some (errorEnvelope VNil (-32700) "Parse error" (VString "EOF")).
Proof.
  rewrite (handleMcpRequest_parse_error demoServer (demoBodyContext "") demoWorld
             {| McpRequest.Jsonrpc := "2.0"; McpRequest.ID := VFloat64 1%float;
                McpRequest.Method := ""; McpRequest.Params := ∅ |}
             (errors_New "EOF")); reflexivity.
Defined.

Lemma demoServer_leavesResponse name tool :
  Get (McpServer.catalog demoServer) name = Some tool →
  leavesResponse (Tool.Execute tool).
Proof.
  intros [Hin _]%Get_NewToolsCatalog. unfold registeredTools in Hin.
  repeat (apply elem_of_cons in Hin as [-> | Hin];
          [first [ apply createCollection_leavesResponse | by intros args w ] |]).
  by apply elem_of_nil in Hin.
Qed.

(** X3 at work: a ping to the demo server. *)
Lemma handleMcpRequest_one_response_witness :
  ∃ response,
    written (handleMcpRequest demoServer (demoBodyContext "ping") demoWorld).2
    = [(StatusOK, response)]
    ∧ McpResponse.Jsonrpc response = "2.0"
    ∧ McpResponse.ID response = VFloat64 1%float.
Proof.
  destruct (handleMcpRequest_one_response demoServer (demoBodyContext "ping") demoWorld
              demoServer_leavesResponse) as (response & Hwritten & Hjson & _ & Hid).
  exists response. split_and!; [exact Hwritten | exact Hjson | exact Hid].
Defined.

(** X5 at work: the role store is out of reach, and the affirmative
    entry of the public role does not help. *)
Lemma role_lookup_failure_closes_witness :
  priCache demoBrokenWorld !! ("public", "Database-default.default", "ShowCollections")
  = Some true
  ∧ checkToolPermission "alice" demoListTool ∅ demoBrokenWorld
    = (Some (errors_New "meta cache not ready"), demoBrokenWorld).
Proof.
  split; [reflexivity |].
  destruct (role_lookup_failure_closes demoServer "alice" demoListTool ∅ []
              demoBrokenWorld (errors_New "meta cache not ready") eq_refl eq_refl)
    as [Hdenied _].
  apply Hdenied. discriminate.
Defined.

(** X6 at work: an argument no requirement names changes nothing. *)
Lemma checkToolPermission_reads_named_fields_witness :
  checkToolPermission "alice" demoListTool {[ "limit" := VInt 5 ]} demoWorld
  = checkToolPermission "alice" demoListTool ∅ demoWorld.
Proof.
  apply checkToolPermission_reads_named_fields; [reflexivity |].
  intros privilege Hin. simpl in Hin.
  apply list_elem_of_singleton in Hin as ->. reflexivity.
Defined.

(** X7 at work: collection.list called on the default database. *)
Lemma database_tool_call_agrees_with_listing_witness :
  checkToolPermission "bob" demoListTool
    (<["database" := VString "default"]> {[ "verbose" := VBool true ]}) demoWorld
  = checkToolPermission "bob" demoListTool {[ "database" := VString "default" ]} demoWorld.
Proof.
  apply (database_tool_call_agrees_with_listing (imports := demoImports));
    [| reflexivity].
  intros privilege Hin. simpl in Hin.
  apply list_elem_of_singleton in Hin as ->. split; reflexivity.
Defined.

(** X10 at work: the demo server's catalog. *)
Lemma List_agrees_with_Get_witness :
  length (List (McpServer.catalog demoServer)) = 10%nat
  ∧ NoDup (McpToolDescription.Name <$> List (McpServer.catalog demoServer)).
Proof.
  destruct (List_agrees_with_Get (McpServer.catalog demoServer)
              NewToolsCatalog_keyedByName) as (Hlength & Hnodup & _).
  split; [| exact Hnodup]. rewrite Hlength. vm_compute. reflexivity.
Defined.

(** X11 at work: bob lists twice, the registry being visited one way
    round and then the other. *)
Lemma handleToolsList_repeatable_witness :
  let w1 := (@handleToolsList nat demoImports demoRange demoServer (demoContext "bob" "")
               (demoRequest "tools/list" ∅) demoWorld).2 in
  let w2 := (@handleToolsList nat demoImports demoReverseRange demoServer
               (demoContext "bob" "2025-03-26") (demoRequest "tools/list" ∅) w1).2 in
  callerOf (demoContext "bob" "2025-03-26") = callerOf (demoContext "bob" "")
  ∧ priCache w2 = priCache w1.
Proof.
  split; [reflexivity |].
  destruct (handleToolsList_repeatable demoRange demoReverseRange demoServer
              (demoContext "bob" "")
              (demoRequest "tools/list" ∅) (demoContext "bob" "2025-03-26")
              (demoRequest "tools/list" ∅) demoWorld eq_refl)
    as (listed1 & listed2 & _ & _ & _ & _ & Hcache).
  exact Hcache.
Defined.

(** The two orders of the example do differ on the demo registry, and
    with authorization disabled the two listings come out in those two
    orders. *)
Lemma List_order_differs :
  @List nat demoRange (McpServer.catalog demoServer)
  ≠ @List nat demoReverseRange (McpServer.catalog demoServer)
  ∧ (@filterToolsByPermission nat demoImports demoServer "bob"
       (@List nat demoReverseRange (McpServer.catalog demoServer)) demoOpenWorld).1
    = reverse (@filterToolsByPermission nat demoImports demoServer "bob"
                 (@List nat demoRange (McpServer.catalog demoServer)) demoOpenWorld).1.
Proof. split; [vm_compute; discriminate | vm_compute; reflexivity]. Qed.

(** X12 at work: initialize with no explicit version and the older
    version in the request header. *)
Lemma handleInitialize_negotiated_witness :
  ∃ result,
    responseOf
      (handleInitialize (demoContext "" "2025-03-26") (demoRequest "initialize" ∅)
         demoWorld).2
    = Some (successEnvelope (VString "req-1") (RInitialize result))
    ∧ McpInitializeResult.ProtocolVersion result = "2025-03-26".
Proof.
  destruct (handleInitialize_negotiated (demoContext "" "2025-03-26")
              (demoRequest "initialize" ∅) demoWorld)
    as (result & header & Hrun & Hversion & _).
  - intros version Hparam. discriminate Hparam.
  - exists result. split; [by rewrite Hrun | exact Hversion].
Defined.


(** X14 at work: collection.create called with a dimension only. *)
Lemma tools_call_create_missing_parameter_witness :
  written
    (handleToolsCall demoServer (demoContext "" "")
       (demoRequest "tools/call"
          (<["name" := VString "collection.create"]>
             {[ "arguments" := VObject {[ "dimension" := VInt 4 ]} ]}))
       demoOpenWorld).2
  = [(StatusOK,
      successEnvelope (VString "req-1")
        (RToolResult
           {| McpToolResult.Content :=
                textContent "Error: required parameter 'collection_name' is missing";
              McpToolResult.IsError := true;
              McpToolResult.StructuredContent := VNil |}))].
Proof.
  change demoServer with (@NewMcpServer nat demoProxy demoImports demoTools).
  rewrite (tools_call_create_missing_parameter _ _ _ "collection_name").
  - reflexivity.
  - reflexivity.
  - reflexivity.
  - left. split; reflexivity.
Defined.

(** X15 at work: resources/list. *)
Lemma handleMcpRequest_auxiliary_witness :
  responseOf (handleMcpRequest demoServer (demoBodyContext "resources/list") demoWorld).2
  = Some (successEnvelope (VFloat64 1%float) (RMap {[ "resources" := VArray [] ]})).
Proof.
  destruct (handleMcpRequest_auxiliary demoServer (demoBodyContext "resources/list")
              demoWorld
              {| McpRequest.Jsonrpc := "2.0"; McpRequest.ID := VFloat64 1%float;
                 McpRequest.Method := "resources/list"; McpRequest.Params := ∅ |}
              "resources/list" "resources" (VArray [])) as [header Hrun].
  - reflexivity.
  - reflexivity.
  - apply list_elem_of_further, list_elem_of_here.
  - rewrite Hrun. reflexivity.
Defined.

(** X19 at work: collection.list. *)
Lemma registered_tools_well_formed_witness :
  ∃ input, Tool.InputSchema demoListTool = Some input ∧ requiredDeclared input.
Proof.
  destruct (registered_tools_well_formed "collection.list" demoListTool)
    as [(input & Hinput & _ & Hdeclared & _) _].
  - vm_compute. reflexivity.
  - by exists input.
Defined.

(** X21 at work: a dimension sent as the string 128. *)
Lemma createCollection_rejects_dimension_witness :
  createCollection
    (<["collection_name" := VString "docs"]> {[ "dimension" := VString "128" ]})
    demoWorld
  = (Err (errors_New "dimension must be positive, got 0"), demoWorld).
Proof.
  destruct (createCollection_rejects_dimension
              (<["collection_name" := VString "docs"]> {[ "dimension" := VString "128" ]})
              demoWorld (VString "128")) as [_ Hmistyped].
  - by eexists.
  - reflexivity.
  - apply Hmistyped; discriminate.
Defined.

(** X22 at work: a collection name sent as the number 7. *)
Lemma createCollection_unnamed_witness :
  ∃ calls,
    proxyCalls
      (createCollection
         (<["collection_name" := VInt 7]> {[ "dimension" := VInt 4 ]}) demoWorld).2
    = CallCreateCollection
        {| CreateCollectionRequest.DbName := "default";
           CreateCollectionRequest.CollectionName := "";
           CreateCollectionRequest.Schema := [] |} :: calls.
Proof.
  destruct (createCollection_unnamed
              (<["collection_name" := VInt 7]> {[ "dimension" := VInt 4 ]})
              demoWorld (VInt 7) []) as [calls Hcalls].
  - reflexivity.
  - discriminate.
  - by eexists.
  - reflexivity.
  - reflexivity.
  - exists calls. exact Hcalls.
Defined.

(** X23 at work: dropping docs succeeds, dropping locked is refused
    with the status reason. *)
Lemma dropCollection_outcome_witness :
  (∃ result w', Catalog.dropCollection {[ "collection_name" := VString "docs" ]} demoWorld
                = (Ok result, w')
                ∧ ToolResult.IsError result = false)
  ∧ (∃ w', Catalog.dropCollection {[ "collection_name" := VString "locked" ]} demoWorld
           = (Err (errors_New "collection is locked"), w')).
Proof.
  split.
  - destruct (dropCollection_outcome {[ "collection_name" := VString "docs" ]} demoWorld)
      as [_ Hpresent].
    specialize (Hpresent ltac:(by eexists)). hnf in Hpresent.
    destruct Hpresent as [Hrun _]. eexists _, _. split; [exact Hrun | reflexivity].
  - destruct (dropCollection_outcome {[ "collection_name" := VString "locked" ]} demoWorld)
      as [_ Hpresent].
    specialize (Hpresent ltac:(by eexists)). hnf in Hpresent.
    destruct Hpresent as [Hrun _]. eexists. exact Hrun.
Defined.
End FurtherExamples.
